(** * Compliance Hub: offline queue, sync hook and derived form fields

  A shallow embedding of
  - [src/lib/offlineDb.ts]   (the IndexedDB-backed queue and cache),
  - [src/hooks/useOfflineSync.ts] (the sync hook: submit and drain),
  - [calculateSeverity] of [CashActionModule.tsx],
  - the checklist gate of [StoreActionModule] in
    [InventoryActionModule.tsx],
  followed by the properties of interest. *)

From Stdlib Require Import List String Ascii ZArith Lia Bool Permutation.
From Stdlib Require Import Floats.
Import ListNotations.

Set Warnings "-inexact-float,-register-all".

Local Open Scope string_scope.
Local Open Scope list_scope.

(* ================================================================== *)
(** ** JavaScript values *)

Module Js.

(** A JavaScript number is an IEEE-754 binary64: Rocq's primitive
    [float], with the same [NaN], signed zeros and infinities. *)
Definition number := float.

(** Values that survive IndexedDB's structured clone. *)
Inductive value : Type :=
| undefined : value
| null : value
| boolean (b : bool) : value
| num (x : number) : value
| str (s : string) : value
| array (elems : list value) : value
| object (fields : list (string * value)) : value.

(** [ToBoolean]: [undefined], [null], [false], [0], [-0], [NaN] and
    the empty string are falsy, everything else is truthy. *)
Definition truthy (v : value) : bool :=
  match v with
  | undefined => false
  | null => false
  | boolean b => b
  | num x => negb (PrimFloat.is_zero x || PrimFloat.is_nan x)
  | str s => negb (String.eqb s "")
  | array _ => true
  | object _ => true
  end.

(** [a || b]. *)
Definition or (a b : value) : value := if truthy a then a else b.

(** [Math.abs] and [>=] on numbers. *)
Definition Math_abs (x : number) : number := PrimFloat.abs x.
Definition ge (x y : number) : bool := PrimFloat.leb y x.
Definition lt (x y : number) : bool := PrimFloat.ltb x y.

(** A number that is not [NaN] and carries no minus sign, read through
    its IEEE-754 decomposition: the shape of a [Math.abs] result. *)
Definition nonneg (a : spec_float) : Prop :=
  match a with
  | S754_nan => False
  | S754_zero s | S754_infinity s | S754_finite s _ _ => s = false
  end.

(** What awaiting a promise yields. *)
Inductive settled (A : Type) : Type :=
| resolved (a : A) : settled A
| rejected (name : string) : settled A.
Arguments resolved {A} a.
Arguments rejected {A} name.

End Js.

(* ================================================================== *)
(** ** An IndexedDB object store with an in-line key path

  Records are kept in ascending key order, which is the order
  [getAll] returns them in; keys are unique.  A key is a JavaScript
  string, written as the [string] of its UTF-16 code units, each of
  them a character below 256: the ids [crypto.randomUUID] draws and
  the keys and table names the code uses are ASCII, and strings with
  higher code units are outside this model.  On these, comparing
  character by character is IndexedDB's comparison of code units.
  The one request failure modelled is the [ConstraintError] of [add]
  on a key that is present; quota and I/O failures of the browser are
  left out. *)

Section ObjectStore.

Variable V : Type.
Variable key : V -> string.

Definition store := list V.

Definition keys (st : store) : list string := map key st.

(** [IDBObjectStore.get]: the record under [k], if any. *)
Definition store_get (k : string) (st : store) : option V :=
  find (fun x => String.eqb (key x) k) st.

(** [IDBObjectStore.put]: insert, or overwrite the record that has
    the same key. *)
Fixpoint store_put (v : V) (st : store) : store :=
  match st with
  | [] => [v]
  | x :: rest =>
      match String.compare (key v) (key x) with
      | Lt => v :: x :: rest
      | Eq => v :: rest
      | Gt => x :: store_put v rest
      end
  end.

(** [IDBObjectStore.add]: as [put], but the request fails with a
    [ConstraintError] when the key is already present. *)
Definition store_add (v : V) (st : store) : Js.settled store :=
  match store_get (key v) st with
  | Some _ => Js.rejected "ConstraintError"
  | None => Js.resolved (store_put v st)
  end.

(** [IDBObjectStore.delete]: no error when the key is absent. *)
Definition store_delete (k : string) (st : store) : store :=
  filter (fun x => negb (String.eqb (key x) k)) st.

Definition store_getAll (st : store) : list V := st.

Definition store_clear (st : store) : store := [].

End ObjectStore.


Arguments store_get {V} key k st.
Arguments store_put {V} key v st.
Arguments store_add {V} key v st.
Arguments store_delete {V} key k st.
Arguments store_getAll {V} st.
Arguments store_clear {V} st.
Arguments keys {V} key st.

(* ================================================================== *)
(** ** [src/lib/offlineDb.ts] *)

Module OfflineDb.

Record OfflineQueueItem : Type := {
  id : string;
  table : string;
  data : Js.value;
  timestamp : Z
}.

(** The record [cacheData] writes: [{ key, table, data, timestamp }]. *)
Record CacheEntry : Type := {
  key : string;
  cache_table : string;
  cache_data : Js.value;
  cache_timestamp : Z
}.

(** The database [initOfflineDb] opens: object store ['offlineQueue']
    with key path ['id'] and object store ['cachedData'] with key path
    ['key'], both created empty on upgrade. *)
Record database : Type := {
  offlineQueue : store OfflineQueueItem;
  cachedData : store CacheEntry
}.

Definition initOfflineDb : database :=
  {| offlineQueue := []; cachedData := [] |}.

(** [addToOfflineQueue(table, data)].  [uuid] is what
    [crypto.randomUUID()] returns and [now] what [Date.now()] returns
    during the call.  Resolves with the id, or rejects with the error
    of the [add] request. *)
Definition addToOfflineQueue (uuid : string) (now : Z)
    (table : string) (data : Js.value) (d : database)
    : Js.settled (string * database) :=
  let item := {| id := uuid; table := table; data := data; timestamp := now |} in
  match store_add id item (offlineQueue d) with
  | Js.resolved q => Js.resolved (uuid, {| offlineQueue := q; cachedData := cachedData d |})
  | Js.rejected e => Js.rejected e
  end.

(** [getOfflineQueue()]. *)
Definition getOfflineQueue (d : database) : list OfflineQueueItem :=
  store_getAll (offlineQueue d).

(** [removeFromOfflineQueue(id)]. *)
Definition removeFromOfflineQueue (k : string) (d : database) : database :=
  {| offlineQueue := store_delete id k (offlineQueue d);
     cachedData := cachedData d |}.

(** [cacheData(key, table, data)]. *)
Definition cacheData (now : Z) (k : string) (table : string)
    (data : Js.value) (d : database) : database :=
  {| offlineQueue := offlineQueue d;
     cachedData :=
       store_put key
         {| key := k; cache_table := table; cache_data := data;
            cache_timestamp := now |}
         (cachedData d) |}.

(** [getCachedData(key)]: [request.result?.data || null], where
    [request.result] is [undefined] when no record has the key. *)
Definition getCachedData (k : string) (d : database) : Js.value :=
  Js.or
    match store_get key k (cachedData d) with
    | Some entry => cache_data entry
    | None => Js.undefined
    end
    Js.null.

(** [clearCache()]: one transaction clears both object stores. *)
Definition clearCache (d : database) : database :=
  {| offlineQueue := store_clear (offlineQueue d);
     cachedData := store_clear (cachedData d) |}.

End OfflineDb.

(* ================================================================== *)
(** ** [src/hooks/useOfflineSync.ts]

    One mounted instance of the hook, together with the database and
    the log of what reached the outside.  [Hook], [step] and [run]
    describe this instance when it is the only one at work; the page
    mounts several at once (the layout's and the open module's), each
    with its own [pendingCount], [isSyncing] and [isSyncingRef] over
    the one database, and module [Page] below runs them side by side.
    The runtime is single threaded: code between two [await]s runs
    without interruption, IndexedDB requests are served in the order
    they are made and their continuations run in that same order, so a
    store request and the synchronous code that follows its [await]
    are one atomic step of the model.  A remote insert may take any
    time and settle either way; its outcome is an input of the step
    that consumes it. *)

Module OfflineSync.

Import OfflineDb.

(** How [await supabase.from(table).insert(data)] settles:
    [{ error: null }], [{ error }] with an error, or a rejection. *)
Inductive InsertResult : Type :=
| insert_ok
| insert_error
| insert_throws.

(** What the hook has done to the outside.  An entry is written in the
    step that consumes its result, so a remote insert is listed when
    it settles, which is later than when it was sent: the entries of a
    pass and of a submission that are in flight together are in the
    order in which they settle. *)
Inductive Effect : Type :=
| ReadQueue
| RemoteInsert (table : string) (data : Js.value)
| Enqueue (id : string)
| Dequeue (id : string)
| ConsoleError (id : string).

(** A call of [syncQueue] that is past its guard and suspended at an
    [await]: at [getOfflineQueue()], or inside the loop with the items
    of its snapshot still to visit. *)
Inductive Pass : Type :=
| Reading
| Looping (rest : list OfflineQueueItem).

Record Hook : Type := {
  db : database;
  isOnline : bool;
  pendingCount : Z;
  isSyncing : bool;
  isSyncingRef : bool;
  passes : list Pass;
  effects : list Effect
}.

Definition with_db (d : database) (h : Hook) : Hook :=
  {| db := d; isOnline := isOnline h; pendingCount := pendingCount h;
     isSyncing := isSyncing h; isSyncingRef := isSyncingRef h;
     passes := passes h; effects := effects h |}.

Definition with_isOnline (b : bool) (h : Hook) : Hook :=
  {| db := db h; isOnline := b; pendingCount := pendingCount h;
     isSyncing := isSyncing h; isSyncingRef := isSyncingRef h;
     passes := passes h; effects := effects h |}.

(** [setPendingCount(f)] with an updater function. *)
Definition setPendingCount (f : Z -> Z) (h : Hook) : Hook :=
  {| db := db h; isOnline := isOnline h; pendingCount := f (pendingCount h);
     isSyncing := isSyncing h; isSyncingRef := isSyncingRef h;
     passes := passes h; effects := effects h |}.

(** [isSyncingRef.current = b; setIsSyncing(b)]. *)
Definition setSyncing (b : bool) (h : Hook) : Hook :=
  {| db := db h; isOnline := isOnline h; pendingCount := pendingCount h;
     isSyncing := b; isSyncingRef := b;
     passes := passes h; effects := effects h |}.

Definition with_passes (ps : list Pass) (h : Hook) : Hook :=
  {| db := db h; isOnline := isOnline h; pendingCount := pendingCount h;
     isSyncing := isSyncing h; isSyncingRef := isSyncingRef h;
     passes := ps; effects := effects h |}.

Definition log (e : Effect) (h : Hook) : Hook :=
  {| db := db h; isOnline := isOnline h; pendingCount := pendingCount h;
     isSyncing := isSyncing h; isSyncingRef := isSyncingRef h;
     passes := passes h; effects := effects h ++ [e] |}.

(** The hook at its first render over database [d]: [useState(0)],
    [useState(false)], [useRef(false)].  The mount effects then call
    [syncQueue()] when online, and [loadPendingCount()]. *)
Definition initial (d : database) (online : bool) : Hook :=
  {| db := d; isOnline := online;
     pendingCount := 0;
     isSyncing := false; isSyncingRef := false;
     passes := []; effects := [] |}.

(** *** [syncQueue] *)

(** [!isOnline || isSyncingRef.current]: the call returns at once. *)
Definition guard (h : Hook) : bool := negb (isOnline h) || isSyncingRef h.

(** The body of the [for] loop for one item, given how its insert
    settles. *)
Definition sync_item (r : InsertResult) (item : OfflineQueueItem) (h : Hook) : Hook :=
  let h1 := log (RemoteInsert (table item) (data item)) h in
  match r with
  | insert_ok =>
      let h2 := log (Dequeue (id item))
                  (with_db (removeFromOfflineQueue (id item) (db h1)) h1) in
      setPendingCount (fun prev => Z.max 0 (prev - 1)%Z) h2
  | insert_error => h1
  | insert_throws => log (ConsoleError (id item)) h1
  end.

(** [const queue = await getOfflineQueue(); setPendingCount(queue.length)]. *)
Definition read_queue (h : Hook) : list OfflineQueueItem * Hook :=
  let queue := getOfflineQueue (db h) in
  (queue, setPendingCount (fun _ => Z.of_nat (List.length queue)) (log ReadQueue h)).

(** A whole call of [syncQueue] with nothing else running in between;
    [remote item] is how the insert of [item] settles. *)
Definition syncQueue (remote : OfflineQueueItem -> InsertResult) (h : Hook) : Hook :=
  if guard h then h
  else
    let h1 := setSyncing true h in
    let (queue, h2) := read_queue h1 in
    let h3 := fold_left (fun acc item => sync_item (remote item) item acc) queue h2 in
    setSyncing false h3.

(** *** [submitWithOfflineSupport] *)

Record SubmitResult : Type := { success : bool; offline : bool }.

(** [await addToOfflineQueue(table, data); setPendingCount(prev => prev + 1);
    return { success: true, offline: true }]; a rejected enqueue
    propagates to the caller. *)
Definition enqueue_and_count (uuid : string) (now : Z)
    (table : string) (data : Js.value) (h : Hook)
    : Js.settled SubmitResult * Hook :=
  match addToOfflineQueue uuid now table data (db h) with
  | Js.resolved (_, d) =>
      (Js.resolved {| success := true; offline := true |},
       setPendingCount (fun prev => (prev + 1)%Z) (log (Enqueue uuid) (with_db d h)))
  | Js.rejected e => (Js.rejected e, h)
  end.

Definition submitWithOfflineSupport (uuid : string) (now : Z) (r : InsertResult)
    (table : string) (data : Js.value) (h : Hook)
    : Js.settled SubmitResult * Hook :=
  if isOnline h then
    let h1 := log (RemoteInsert table data) h in
    match r with
    | insert_ok => (Js.resolved {| success := true; offline := false |}, h1)
    | insert_error | insert_throws => enqueue_and_count uuid now table data h1
    end
  else enqueue_and_count uuid now table data h.

(** The result in the specification's vocabulary:
    [{accepted, persistedRemotely}]. *)
Definition accepted (r : SubmitResult) : bool := success r.
Definition persistedRemotely (r : SubmitResult) : bool := negb (offline r).



(** *** Interleaved execution *)

Inductive Event : Type :=
| Connectivity (online : bool)
| CallSyncQueue
| QueueRead (k : nat)
| InsertSettled (k : nat) (r : InsertResult)
| PassDone (k : nat)
| Submit (uuid : string) (now : Z) (r : InsertResult) (table : string) (data : Js.value)
| LoadPendingCount
| ClearCache.

Fixpoint replace_nth {A : Type} (k : nat) (x : A) (l : list A) : list A :=
  match l, k with
  | [], _ => []
  | _ :: l', O => x :: l'
  | y :: l', S k' => y :: replace_nth k' x l'
  end.

Fixpoint remove_nth {A : Type} (k : nat) (l : list A) : list A :=
  match l, k with
  | [], _ => []
  | _ :: l', O => l'
  | y :: l', S k' => y :: remove_nth k' l'
  end.

(** The synchronous start of [syncQueue()]: either it returns at the
    guard, or it sets the flags and suspends at [getOfflineQueue()]. *)
Definition call_syncQueue (h : Hook) : Hook :=
  if guard h then h
  else let h1 := setSyncing true h in with_passes (passes h1 ++ [Reading]) h1.

(** One atomic step; [None] when the event cannot happen in [h]
    (pass [k] does not exist or is not at that point). *)
Definition step (e : Event) (h : Hook) : option Hook :=
  match e with
  | Connectivity b => Some (with_isOnline b h)
  | CallSyncQueue => Some (call_syncQueue h)
  | QueueRead k =>
      match nth_error (passes h) k with
      | Some Reading =>
          let (queue, h1) := read_queue h in
          Some (with_passes (replace_nth k (Looping queue) (passes h1)) h1)
      | _ => None
      end
  | InsertSettled k r =>
      match nth_error (passes h) k with
      | Some (Looping (item :: rest)) =>
          let h1 := sync_item r item h in
          Some (with_passes (replace_nth k (Looping rest) (passes h1)) h1)
      | _ => None
      end
  | PassDone k =>
      match nth_error (passes h) k with
      | Some (Looping []) =>
          Some (setSyncing false (with_passes (remove_nth k (passes h)) h))
      | _ => None
      end
  | Submit uuid now r table data =>
      Some (snd (submitWithOfflineSupport uuid now r table data h))
  | LoadPendingCount =>
      Some (setPendingCount (fun _ => Z.of_nat (List.length (getOfflineQueue (db h)))) h)
  | ClearCache => Some (with_db (clearCache (db h)) h)
  end.

Fixpoint run (es : list Event) (h : Hook) : option Hook :=
  match es with
  | [] => Some h
  | e :: es' =>
      match step e h with
      | Some h' => run es' h'
      | None => None
      end
  end.

(** The schedule of one uninterrupted pass over snapshot [queue]. *)
Definition pass_schedule (remote : OfflineQueueItem -> InsertResult)
    (queue : list OfflineQueueItem) : list Event :=
  CallSyncQueue :: QueueRead 0
    :: map (fun item => InsertSettled 0 (remote item)) queue ++ [PassDone 0].

Definition is_clear (e : Event) : bool :=
  match e with ClearCache => true | _ => false end.

(** The engine is idle when no pass is suspended. *)
Definition idle (h : Hook) : Prop := passes h = [].

(** No pass in flight and the flag down, or one pass and the flag up. *)
Definition single_flight (h : Hook) : Prop :=
  (passes h = [] /\ isSyncingRef h = false)
  \/ (exists p, passes h = [p] /\ isSyncingRef h = true).

(** The items a pass has still to visit. *)
Definition remaining (p : Pass) : list OfflineQueueItem :=
  match p with
  | Reading => []
  | Looping rest => rest
  end.

(** Before the count has been read from the store for the first time:
    a pass, if any, is still waiting for the queue. *)
Definition loading (h : Hook) : Prop :=
  NoDup (keys id (offlineQueue (db h)))
  /\ single_flight h
  /\ forall p, In p (passes h) -> p = Reading.

(** The count agrees with the queue, and what a pass has still to
    visit is in the queue, each item once. *)
Definition consistent (h : Hook) : Prop :=
  NoDup (keys id (offlineQueue (db h)))
  /\ pendingCount h = Z.of_nat (List.length (getOfflineQueue (db h)))
  /\ single_flight h
  /\ forall p, In p (passes h) ->
       NoDup (map id (remaining p))
       /\ incl (map id (remaining p)) (keys id (offlineQueue (db h))).

End OfflineSync.

(* ================================================================== *)
(** ** [CashActionModule.tsx] *)

Module CashAction.

Inductive ActionType : Type := reconciliation | shortage.
Inductive Severity : Type := low | medium | high | critical.

(** [parseFloat(s) || 0], given what [parseFloat] returned. *)
Definition or_zero (parsed : Js.number) : Js.number :=
  if Js.truthy (Js.num parsed) then parsed else 0%float.

(** [calculateVariance], given what [parseFloat] returns for the two
    amount fields. *)
Definition calculateVariance (expectedAmount actualAmount : Js.number) : Js.number :=
  let expected := or_zero expectedAmount in
  let actual := or_zero actualAmount in
  (actual - expected)%float.

Definition calculateSeverity (variance : Js.number) : Severity :=
  let absVariance := Js.Math_abs variance in
  if Js.ge absVariance 100%float then critical
  else if Js.ge absVariance 50%float then high
  else if Js.ge absVariance 20%float then medium
  else low.

(** The tiers as intervals of the absolute variance: below 20, from 20
    to below 50, from 50 to below 100, and 100 or more. *)
Definition tier (s : Severity) (a : Js.number) : bool :=
  match s with
  | low => Js.lt a 20%float
  | medium => Js.ge a 20%float && Js.lt a 50%float
  | high => Js.ge a 50%float && Js.lt a 100%float
  | critical => Js.ge a 100%float
  end.

(** The [severity] field [handleSubmit] writes. *)
Definition submitted_severity (actionType : ActionType) (variance : Js.number) : Severity :=
  match actionType with
  | shortage => calculateSeverity variance
  | reconciliation => low
  end.

End CashAction.

(* ================================================================== *)
(** ** [StoreActionModule] in [InventoryActionModule.tsx] *)

Module StoreAction.

Inductive ActionType : Type :=
| opening_checklist
| closing_checklist
| maintenance.

Record ChecklistItem : Type := {
  id : string;
  label : string;
  completed : bool;
  completed_at : option string
}.

Definition is_maintenance (t : ActionType) : bool :=
  match t with maintenance => true | _ => false end.

(** [checklistItems.filter((i) => i.completed).length]. *)
Definition completedCount (checklistItems : list ChecklistItem) : nat :=
  List.length (filter completed checklistItems).

Definition totalCount (checklistItems : list ChecklistItem) : nat :=
  List.length checklistItems.

(** [isFullyCompleted] of [handleSubmit]; the submitted record carries
    a [completed_at] date exactly when it holds. *)
Definition isFullyCompleted (actionType : ActionType)
    (checklistItems : list ChecklistItem) : bool :=
  is_maintenance actionType
  || Nat.eqb (completedCount checklistItems) (List.length checklistItems).

(** The [disabled] attribute of the form's submit button. *)
Definition submit_disabled (submitting : bool) (actionType : ActionType)
    (checklistItems : list ChecklistItem) : bool :=
  submitting
  || (negb (is_maintenance actionType)
      && Nat.ltb (completedCount checklistItems) (totalCount checklistItems)).

(** [toggleChecklistItem(id)]; [now] is the current time as an ISO
    string. *)
Definition toggleChecklistItem (now : string) (k : string)
    (checklistItems : list ChecklistItem) : list ChecklistItem :=
  map (fun item =>
         if String.eqb (id item) k then
           {| id := id item; label := label item;
              completed := negb (completed item);
              completed_at := if negb (completed item) then Some now else None |}
         else item)
      checklistItems.

End StoreAction.

(* ================================================================== *)
(** ** Sample data *)

Module Sample.

Import OfflineDb OfflineSync.

(** A cash record, as a payload. *)
Definition shortage_record : Js.value :=
  Js.object [("action_type", Js.str "shortage"); ("variance", Js.num (-25.5)%float)].

Definition item_a : OfflineQueueItem :=
  {| id := "a"; table := "cash_actions"; data := shortage_record; timestamp := 1%Z |}.
Definition item_b : OfflineQueueItem :=
  {| id := "b"; table := "store_actions"; data := Js.null; timestamp := 2%Z |}.
Definition item_c : OfflineQueueItem :=
  {| id := "c"; table := "cash_actions"; data := Js.object []; timestamp := 3%Z |}.

(** A remote store that refuses what goes to [store_actions]. *)
Definition remote_b_fails (item : OfflineQueueItem) : InsertResult :=
  if String.eqb (table item) "store_actions" then insert_error else insert_ok.


End Sample.

(* ================================================================== *)
(** ** Further parts of the code *)


Module Drain.

Import OfflineDb OfflineSync.

Definition is_ok (r : InsertResult) : bool :=
  match r with insert_ok => true | _ => false end.

(** What the loop body of [syncQueue] does to the outside for one
    item. *)
Definition item_effects (remote : OfflineQueueItem -> InsertResult)
    (item : OfflineQueueItem) : list Effect :=
  RemoteInsert (table item) (data item)
  :: match remote item with
     | insert_ok => [Dequeue (id item)]
     | insert_error => []
     | insert_throws => [ConsoleError (id item)]
     end.

(** The ids of the items whose insert succeeds. *)
Definition ok_ids (remote : OfflineQueueItem -> InsertResult)
    (items : list OfflineQueueItem) : list string :=
  map id (filter (fun item => is_ok (remote item)) items).

(** [x] is in no snapshot that a pass in flight is working through. *)
Definition outside_snapshots (x : OfflineQueueItem) (h : Hook) : Prop :=
  forall p, In p (passes h) -> ~ In (id x) (map id (remaining p)).

Definition takes_snapshot_or_clears (e : Event) : bool :=
  match e with
  | QueueRead _ | ClearCache => true
  | _ => false
  end.

Definition goes_online (e : Event) : bool :=
  match e with
  | Connectivity true => true
  | _ => false
  end.

Definition is_remote_insert (e : Effect) : bool :=
  match e with
  | RemoteInsert _ _ => true
  | _ => false
  end.

End Drain.

(** The sync button of [Layout.tsx], over the hook it renders. *)
Module Layout.

Import OfflineSync.

(** [pendingCount > 0 && <button ...>]. *)
Definition sync_button_shown (h : Hook) : bool := Z.ltb 0 (pendingCount h).

(** [disabled={!isOnline || isSyncing}]; its [onClick] is [syncQueue]. *)
Definition sync_button_disabled (h : Hook) : bool :=
  negb (isOnline h) || isSyncing h.

End Layout.

(** The order of the four severities. *)
Module SeverityOrder.

Import CashAction.

Definition rank (s : Severity) : nat :=
  match s with
  | low => 0
  | medium => 1
  | high => 2
  | critical => 3
  end.

End SeverityOrder.

(** The checklists of [StoreActionModule] and the clicks on them. *)
Module Checklist.

Import StoreAction.

(** [Omit<ChecklistItem, 'completed' | 'completed_at'>]. *)
Record ItemTemplate : Type := { template_id : string; template_label : string }.

Definition OPENING_CHECKLIST_ITEMS : list ItemTemplate :=
  [ {| template_id := "open-1"; template_label := "Unlock all doors and disable alarm" |};
    {| template_id := "open-2"; template_label := "Turn on all lights and displays" |};
    {| template_id := "open-3"; template_label := "Power on POS systems and verify connectivity" |};
    {| template_id := "open-4"; template_label := "Count opening cash drawer" |};
    {| template_id := "open-5"; template_label := "Check inventory levels on display floor" |};
    {| template_id := "open-6"; template_label := "Review previous day notes/issues" |};
    {| template_id := "open-7"; template_label := "Clean and organize store entrance" |};
    {| template_id := "open-8"; template_label := "Verify promotional signage is current" |} ].

Definition CLOSING_CHECKLIST_ITEMS : list ItemTemplate :=
  [ {| template_id := "close-1"; template_label := "Complete all pending transactions" |};
    {| template_id := "close-2"; template_label := "Count and reconcile cash drawers" |};
    {| template_id := "close-3"; template_label := "Power down POS systems properly" |};
    {| template_id := "close-4"; template_label := "Secure all inventory and displays" |};
    {| template_id := "close-5"; template_label := "Clean and organize sales floor" |};
    {| template_id := "close-6"; template_label := "Empty trash and recycling" |};
    {| template_id := "close-7"; template_label := "Check restrooms and break areas" |};
    {| template_id := "close-8"; template_label := "Set alarm and lock all doors" |} ].

(** [initializeChecklist(type)]: the opening items for
    ['opening_checklist'], the closing items for anything else, none
    of them completed. *)
Definition initializeChecklist (type : ActionType) : list ChecklistItem :=
  map (fun item =>
         {| id := template_id item; label := template_label item;
            completed := false; completed_at := None |})
      match type with
      | opening_checklist => OPENING_CHECKLIST_ITEMS
      | _ => CLOSING_CHECKLIST_ITEMS
      end.

(** Clicks on checklist rows, each with the time it happens at and the
    id of the row, applied in order. *)
Definition after_toggles (clicks : list (string * string))
    (checklistItems : list ChecklistItem) : list ChecklistItem :=
  fold_left (fun acc click => toggleChecklistItem (fst click) (snd click) acc)
    clicks checklistItems.

(** How often the row [k] was clicked. *)
Definition times_toggled (k : string) (clicks : list (string * string)) : nat :=
  List.length (filter (fun click => String.eqb (snd click) k) clicks).

(** [completed_at] is set exactly on the completed items. *)
Definition stamped (item : ChecklistItem) : Prop :=
  completed item = match completed_at item with Some _ => true | None => false end.

End Checklist.

(** [handleSubmit] of [CashActionModule.tsx], over the hook instance of
    the module.  [parseFloat] is the JavaScript built-in; the timer
    that hides the success banner after three seconds is left out, and
    [sendNotification], which is not awaited, is recorded as a call. *)
Module CashForm.

Import OfflineDb OfflineSync CashAction.

Inductive Shift : Type := opening | midday | closing.

(** What the component reads of [profile] and [selectedStore]. *)
Record Profile : Type := { profile_id : string; full_name : string }.
Record Store : Type := { store_id : string; store_name : string }.

Record Form : Type := {
  actionType : ActionType;
  drawerId : string;
  expectedAmount : string;
  actualAmount : string;
  shift : Shift;
  description : string
}.

Record Component : Type := {
  form : Form;
  actions : list Js.value;
  showForm : bool;
  submitting : bool;
  submitSuccess : bool;
  notifications : list Js.value
}.

Definition empty_form : Form :=
  {| actionType := reconciliation; drawerId := ""; expectedAmount := "";
     actualAmount := ""; shift := opening; description := "" |}.

Definition actionType_name (t : ActionType) : string :=
  match t with reconciliation => "reconciliation" | shortage => "shortage" end.

Definition severity_name (s : Severity) : string :=
  match s with
  | low => "low" | medium => "medium" | high => "high" | critical => "critical"
  end.

Definition shift_name (s : Shift) : string :=
  match s with opening => "opening" | midday => "midday" | closing => "closing" end.

Section WithParseFloat.

Variable parseFloat : string -> Js.number.

Definition form_variance (f : Form) : Js.number :=
  calculateVariance (parseFloat (expectedAmount f)) (parseFloat (actualAmount f)).

Definition form_severity (f : Form) : Severity :=
  submitted_severity (actionType f) (form_variance f).

(** [newAction]. *)
Definition newAction (profile : Profile) (store : Store) (online : bool)
    (f : Form) : Js.value :=
  Js.object
    [ ("store_id", Js.str (store_id store));
      ("submitted_by", Js.str (profile_id profile));
      ("action_type", Js.str (actionType_name (actionType f)));
      ("drawer_id", Js.str (drawerId f));
      ("expected_amount", Js.num (or_zero (parseFloat (expectedAmount f))));
      ("actual_amount", Js.num (or_zero (parseFloat (actualAmount f))));
      ("variance", Js.num (form_variance f));
      ("severity", Js.str (severity_name (form_severity f)));
      ("description", Js.or (Js.str (description f)) Js.null);
      ("shift", Js.str (shift_name (shift f)));
      ("synced", Js.boolean online) ].

(** [{ ...newAction, id: crypto.randomUUID(), created_at: new Date().toISOString() }]. *)
Definition displayed_row (row_id created_at : string) (action : Js.value) : Js.value :=
  match action with
  | Js.object fields =>
      Js.object (fields ++ [("id", Js.str row_id); ("created_at", Js.str created_at)])
  | other => other
  end.

(** The argument of [sendNotification]. *)
Definition notification (profile : Profile) (store : Store) (f : Form) : Js.value :=
  Js.object
    [ ("type", Js.str "cash_action");
      ("storeId", Js.str (store_id store));
      ("storeName", Js.str (store_name store));
      ("submitterName", Js.str (full_name profile));
      ("severity", Js.str (severity_name (form_severity f)));
      ("details",
       Js.object
         [ ("drawer_id", Js.str (drawerId f));
           ("shift", Js.str (shift_name (shift f)));
           ("expected_amount", Js.num (or_zero (parseFloat (expectedAmount f))));
           ("actual_amount", Js.num (or_zero (parseFloat (actualAmount f))));
           ("variance", Js.num (form_variance f));
           ("description", Js.str (description f)) ]) ].

Definition set_submitting (b : bool) (c : Component) : Component :=
  {| form := form c; actions := actions c; showForm := showForm c;
     submitting := b; submitSuccess := submitSuccess c;
     notifications := notifications c |}.

(** The [if (success)] block, for a result that was not queued
    ([offline] false) or was. *)
Definition after_success (queued : bool) (row notif : Js.value) (c : Component)
    : Component :=
  {| form := empty_form;
     actions := if queued then actions c else row :: actions c;
     showForm := false;
     submitting := submitting c;
     submitSuccess := true;
     notifications := if queued then notifications c else notifications c ++ [notif] |}.

(** [handleSubmit].  [uuid] and [now] are drawn by the enqueue, [r] is
    how the remote insert settles, [row_id] and [created_at] are drawn
    for the row shown in the list.  A rejected
    [submitWithOfflineSupport] rejects [handleSubmit] at the [await]. *)
Definition handleSubmit (uuid : string) (now : Z) (r : InsertResult)
    (row_id created_at : string)
    (profile : option Profile) (store : option Store)
    (c : Component) (h : Hook) : Js.settled unit * Component * Hook :=
  match profile, store with
  | Some pr, Some st =>
      let c1 := set_submitting true c in
      let action := newAction pr st (isOnline h) (form c) in
      let (res, h') := submitWithOfflineSupport uuid now r "cash_actions" action h in
      match res with
      | Js.resolved sr =>
          let c2 :=
            if success sr then
              after_success (offline sr) (displayed_row row_id created_at action)
                (notification pr st (form c)) c1
            else c1 in
          (Js.resolved tt, set_submitting false c2, h')
      | Js.rejected e => (Js.rejected e, c1, h')
      end
  | _, _ => (Js.resolved tt, c, h)
  end.

End WithParseFloat.

End CashForm.

(** Several mounted instances of [useOfflineSync] on one page: the one
    of [Layout] and the one of the open module ([App.tsx] renders
    [Layout] around the dashboard and its modules).  The IndexedDB
    database and the remote store are shared; [pendingCount],
    [isSyncing], [isSyncingRef], the connectivity state and the passes
    in flight are each instance's own. *)
Module Page.

Import OfflineDb OfflineSync.

(** What one instance keeps for itself. *)
Record Instance : Type := {
  online : bool;
  count : Z;
  syncing : bool;
  syncingRef : bool;
  in_flight : list Pass
}.

Record Page : Type := {
  shared_db : database;
  remote_log : list Effect;
  instances : list Instance
}.

(** An instance seen as a hook over the shared database and log. *)
Definition attach (p : Page) (i : Instance) : Hook :=
  {| db := shared_db p; isOnline := online i; pendingCount := count i;
     isSyncing := syncing i; isSyncingRef := syncingRef i;
     passes := in_flight i; effects := remote_log p |}.

Definition detach (h : Hook) : Instance :=
  {| online := isOnline h; count := pendingCount h;
     syncing := isSyncing h; syncingRef := isSyncingRef h;
     in_flight := passes h |}.

(** Instance [k] takes the step [e]. *)
Definition step_at (k : nat) (e : Event) (p : Page) : option Page :=
  match nth_error (instances p) k with
  | Some i =>
      match step e (attach p i) with
      | Some h =>
          Some {| shared_db := db h; remote_log := effects h;
                  instances := replace_nth k (detach h) (instances p) |}
      | None => None
      end
  | None => None
  end.

Fixpoint run (es : list (nat * Event)) (p : Page) : option Page :=
  match es with
  | [] => Some p
  | (k, e) :: es' =>
      match step_at k e p with
      | Some p' => run es' p'
      | None => None
      end
  end.

(** [n] instances at their first render over database [d]. *)
Definition mount (n : nat) (d : database) (is_online : bool) : Page :=
  {| shared_db := d; remote_log := [];
     instances := repeat (detach (initial d is_online)) n |}.

(** The instance of [Layout] and the one of the open module. *)
Definition layout : nat := 0.
Definition open_module : nat := 1.

(** The remote inserts of a log. *)
Definition remote_inserts (l : list Effect) : list Effect :=
  filter (fun e => match e with RemoteInsert _ _ => true | _ => false end) l.

(** Instance [i] has at most one pass in flight, and its flag is up
    exactly then. *)
Definition one_pass (i : Instance) : Prop :=
  (in_flight i = [] /\ syncingRef i = false)
  \/ (exists q, in_flight i = [q] /\ syncingRef i = true).

End Page.

(** More sample data. *)
Module Sample2.

Import OfflineDb OfflineSync Sample.

Definition three_queued : database :=
  {| offlineQueue := [item_a; item_b; item_c]; cachedData := [] |}.

Definition one_queued : database :=
  {| offlineQueue := [item_a]; cachedData := [] |}.

Definition always_ok (item : OfflineQueueItem) : InsertResult := insert_ok.

(** A pass that has read [item_a] and is waiting for its insert, with
    [item_c] enqueued in the meantime. *)
Definition mid_pass : Hook :=
  {| db := {| offlineQueue := [item_a; item_c]; cachedData := [] |};
     isOnline := true; pendingCount := 2;
     isSyncing := true; isSyncingRef := true;
     passes := [Looping [item_a]]; effects := [] |}.

End Sample2.

(* ================================================================== *)
(** * Properties *)

Example truthy_zero : Js.truthy (Js.num 0%float) = false.
Proof. reflexivity. Qed.
Example truthy_negzero : Js.truthy (Js.num (-0)%float) = false.
Proof. reflexivity. Qed.
Example truthy_nan : Js.truthy (Js.num PrimFloat.nan) = false.
Proof. reflexivity. Qed.
Example truthy_one : Js.truthy (Js.num 4.99%float) = true.
Proof. reflexivity. Qed.


(** ** Facts about object stores *)

Section ObjectStoreFacts.

Variable V : Type.
Variable key : V -> string.

Lemma compare_refl (s : string) : String.compare s s = Eq.
Proof.
  pose proof (String.compare_antisym s s) as H.
  destruct (String.compare s s); simpl in H; congruence.
Qed.

Lemma compare_neq_eqb (a b : string) :
  String.compare a b <> Eq -> String.eqb b a = false.
Proof.
  intros H. apply String.eqb_neq. intros ->. apply H, compare_refl.
Qed.

Lemma store_get_put_same (v : V) (st : store V) :
  store_get key (key v) (store_put key v st) = Some v.
Proof.
  unfold store_get.
  induction st as [|x rest IH]; simpl.
  - now rewrite String.eqb_refl.
  - destruct (String.compare (key v) (key x)) eqn:E; simpl.
    + now rewrite String.eqb_refl.
    + now rewrite String.eqb_refl.
    + rewrite (compare_neq_eqb (key v) (key x)) by congruence.
      exact IH.
Qed.

Lemma store_get_None_notin (k : string) (st : store V) :
  store_get key k st = None <-> ~ In k (keys key st).
Proof.
  unfold store_get, keys.
  induction st as [|x rest IH]; simpl.
  - tauto.
  - destruct (String.eqb (key x) k) eqn:E.
    + apply String.eqb_eq in E. split; [discriminate | tauto].
    + apply String.eqb_neq in E. rewrite IH. tauto.
Qed.

Lemma store_put_fresh_perm (v : V) (st : store V) :
  store_get key (key v) st = None -> Permutation (store_put key v st) (v :: st).
Proof.
  unfold store_get.
  induction st as [|x rest IH]; simpl; intros H.
  - reflexivity.
  - destruct (String.eqb (key x) (key v)) eqn:E; [discriminate|].
    destruct (String.compare (key v) (key x)) eqn:C.
    + apply String.compare_eq_iff in C. apply String.eqb_neq in E.
      congruence.
    + reflexivity.
    + rewrite (IH H). apply perm_swap.
Qed.

Lemma store_put_fresh_length (v : V) (st : store V) :
  store_get key (key v) st = None -> List.length (store_put key v st) = S (List.length st).
Proof.
  intros H. now rewrite (Permutation_length (store_put_fresh_perm v st H)).
Qed.

Lemma store_put_fresh_NoDup (v : V) (st : store V) :
  store_get key (key v) st = None ->
  NoDup (keys key st) -> NoDup (keys key (store_put key v st)).
Proof.
  intros H ND.
  apply (Permutation_NoDup (l := keys key (v :: st))).
  - symmetry. apply Permutation_map, store_put_fresh_perm, H.
  - simpl. constructor; [now apply store_get_None_notin | exact ND].
Qed.

Lemma store_put_fresh_In (v x : V) (st : store V) :
  store_get key (key v) st = None ->
  In x (store_put key v st) <-> x = v \/ In x st.
Proof.
  intros H. split; intros HI.
  - apply (Permutation_in _ (store_put_fresh_perm v st H)) in HI.
    destruct HI; auto.
  - apply (Permutation_in _ (Permutation_sym (store_put_fresh_perm v st H))).
    destruct HI; [left | right]; auto.
Qed.

Lemma store_delete_In (k : string) (x : V) (st : store V) :
  In x (store_delete key k st) <-> In x st /\ key x <> k.
Proof.
  unfold store_delete. rewrite filter_In, negb_true_iff, String.eqb_neq.
  tauto.
Qed.

Lemma store_delete_absent (k : string) (st : store V) :
  ~ In k (keys key st) -> store_delete key k st = st.
Proof.
  unfold store_delete, keys.
  induction st as [|x rest IH]; simpl; intros H; [reflexivity|].
  destruct (String.eqb (key x) k) eqn:E; simpl.
  - apply String.eqb_eq in E. tauto.
  - f_equal. apply IH. tauto.
Qed.

Lemma store_delete_keys_incl (k : string) (st : store V) :
  incl (keys key (store_delete key k st)) (keys key st).
Proof.
  intros a Ha. unfold keys in *. apply in_map_iff in Ha as (x & <- & Hx).
  apply store_delete_In in Hx. apply in_map, Hx.
Qed.

Lemma store_delete_NoDup (k : string) (st : store V) :
  NoDup (keys key st) -> NoDup (keys key (store_delete key k st)).
Proof.
  unfold store_delete, keys.
  induction st as [|x rest IH]; simpl; intros ND; [constructor|].
  inversion ND as [|? ? Hx ND']; subst.
  destruct (String.eqb (key x) k); simpl; auto.
  constructor; auto.
  intros Hin. apply Hx. now apply (store_delete_keys_incl k rest).
Qed.

Lemma store_delete_present_length (k : string) (st : store V) :
  NoDup (keys key st) -> In k (keys key st) ->
  S (List.length (store_delete key k st)) = List.length st.
Proof.
  unfold store_delete, keys.
  induction st as [|x rest IH]; simpl; intros ND HI; [tauto|].
  inversion ND as [|? ? Hx ND']; subst.
  destruct (String.eqb (key x) k) eqn:E; simpl.
  - apply String.eqb_eq in E. subst k.
    f_equal. exact (f_equal (@List.length V) (store_delete_absent (key x) rest Hx)).
  - apply String.eqb_neq in E. f_equal. apply IH; tauto.
Qed.

Lemma store_delete_not_key (k : string) (st : store V) :
  ~ In k (keys key (store_delete key k st)).
Proof.
  unfold keys. intros H. apply in_map_iff in H as (x & Hk & Hx).
  apply store_delete_In in Hx. tauto.
Qed.

Lemma store_delete_other_key (k k' : string) (st : store V) :
  k' <> k -> In k' (keys key st) -> In k' (keys key (store_delete key k st)).
Proof.
  unfold keys. intros Hne H. apply in_map_iff in H as (x & Hk & Hx).
  apply in_map_iff. exists x. split; [exact Hk|].
  apply store_delete_In. split; congruence.
Qed.

End ObjectStoreFacts.

(* ================================================================== *)
(** ** The queue and the cache of [offlineDb.ts] *)

Section OfflineDbFacts.

Import OfflineDb.

Lemma removeFromOfflineQueue_gone (k : string) (d : database) (item : OfflineQueueItem) :
  In item (getOfflineQueue (removeFromOfflineQueue k d)) -> id item <> k.
Proof.
  unfold getOfflineQueue, removeFromOfflineQueue, store_getAll. simpl.
  intros H. now apply store_delete_In in H.
Qed.

Lemma removeFromOfflineQueue_missing (k : string) (d : database) :
  ~ In k (keys id (offlineQueue d)) -> removeFromOfflineQueue k d = d.
Proof.
  intros H. destruct d as [q c]. unfold removeFromOfflineQueue. simpl in *.
  now rewrite store_delete_absent.
Qed.

(** C8. Round trip of the queue: on an empty queue, for every table
    [t] and payload [p], [addToOfflineQueue(t, p)] resolves with the id
    it generated and [getOfflineQueue()] then holds exactly one item,
    with that id, table [t] and data [p]; after
    [removeFromOfflineQueue(id)] the queue holds no item with that id
    (it is empty again). *)
Theorem queue_round_trip (t : string) (p : Js.value) (uuid : string) (now : Z)
    (cache : store CacheEntry) :
  exists d1,
    addToOfflineQueue uuid now t p {| offlineQueue := []; cachedData := cache |}
      = Js.resolved (uuid, d1)
    /\ (exists item,
          getOfflineQueue d1 = [item]
          /\ id item = uuid /\ table item = t /\ data item = p)
    /\ (forall item,
          In item (getOfflineQueue (removeFromOfflineQueue uuid d1)) ->
          id item <> uuid)
    /\ getOfflineQueue (removeFromOfflineQueue uuid d1) = [].
Proof.
  eexists. split; [reflexivity|].
  split.
  - eexists. split; [reflexivity|]. simpl. auto.
  - split.
    + intros item. apply removeFromOfflineQueue_gone.
    + unfold getOfflineQueue, removeFromOfflineQueue, store_getAll. simpl.
      now rewrite String.eqb_refl.
Qed.

(** C10. [getCachedData] after [cacheData] gives the value back only
    when it is truthy: for every key, table and value [v], the store
    holds an entry for the key whose data is [v], and [getCachedData]
    returns [v] if [v] is truthy and [null] otherwise; [0], the empty
    string, [false] and [null] are falsy. *)
Theorem cache_get_after_put (now : Z) (k c : string) (v : Js.value) (d : database) :
  getCachedData k (cacheData now k c v d) = (if Js.truthy v then v else Js.null)
  /\ (exists entry,
        store_get key k (cachedData (cacheData now k c v d)) = Some entry
        /\ cache_data entry = v)
  /\ getCachedData k (cacheData now k c (Js.num 0%float) d) = Js.null
  /\ getCachedData k (cacheData now k c (Js.str "") d) = Js.null
  /\ getCachedData k (cacheData now k c (Js.boolean false) d) = Js.null
  /\ getCachedData k (cacheData now k c Js.null d) = Js.null.
Proof.
  assert (G : forall w,
             store_get key k (cachedData (cacheData now k c w d))
             = Some {| key := k; cache_table := c; cache_data := w;
                       cache_timestamp := now |}).
  { intros w. unfold cacheData. simpl.
    exact (store_get_put_same CacheEntry key
             {| key := k; cache_table := c; cache_data := w;
                cache_timestamp := now |} (cachedData d)). }
  assert (R : forall w,
             getCachedData k (cacheData now k c w d)
             = if Js.truthy w then w else Js.null).
  { intros w. unfold getCachedData. rewrite G. reflexivity. }
  split; [apply R|].
  split; [eexists; split; [apply G | reflexivity]|].
  repeat split; rewrite R; reflexivity.
Qed.

End OfflineDbFacts.

(* ================================================================== *)
(** ** The checklist gate of [StoreActionModule] *)

Section StoreActionFacts.

Import StoreAction.

Lemma completedCount_le (items : list ChecklistItem) :
  completedCount items <= List.length items.
Proof. apply filter_length_le. Qed.

Lemma completedCount_all (items : list ChecklistItem) :
  completedCount items = List.length items
  <-> Forall (fun i => completed i = true) items.
Proof.
  unfold completedCount.
  induction items as [|i rest IH]; simpl.
  - split; [constructor | reflexivity].
  - destruct (completed i) eqn:E; simpl.
    + split.
      * intros H. constructor; [exact E|]. apply IH. lia.
      * intros H. inversion H; subst. f_equal. now apply IH.
    + split.
      * intros H. pose proof (filter_length_le completed rest). lia.
      * intros H. inversion H; subst. congruence.
Qed.

(** C9. The checklist gate: for an opening or a closing checklist the
    submit button is enabled (no submission being in flight) exactly
    when every item is completed, and [handleSubmit] stamps the record
    as completed under the same condition; for a maintenance request
    the button is enabled and the record is stamped whatever the
    items are. *)
Theorem checklist_completion_gate (items : list ChecklistItem) :
  (submit_disabled false opening_checklist items = false
     <-> Forall (fun i => completed i = true) items)
  /\ (submit_disabled false closing_checklist items = false
     <-> Forall (fun i => completed i = true) items)
  /\ (isFullyCompleted opening_checklist items = true
     <-> Forall (fun i => completed i = true) items)
  /\ (isFullyCompleted closing_checklist items = true
     <-> Forall (fun i => completed i = true) items)
  /\ submit_disabled false maintenance items = false
  /\ isFullyCompleted maintenance items = true.
Proof.
  pose proof (completedCount_le items) as Hle.
  pose proof (completedCount_all items) as Hall.
  unfold submit_disabled, isFullyCompleted, totalCount. simpl.
  rewrite Nat.ltb_ge, Nat.eqb_eq.
  repeat split; try (intros H; apply Hall; lia);
    try (intros H; apply Hall in H; lia).
Qed.

End StoreActionFacts.

(* ================================================================== *)
(** ** The order of binary64 numbers on absolute values *)

Section Binary64Order.


Lemma SFabs_nonneg (x : spec_float) : x <> S754_nan -> Js.nonneg (SFabs x).
Proof. destruct x; simpl; congruence. Qed.

Lemma SFcompare_nonneg_some (a b : spec_float) :
  Js.nonneg a -> Js.nonneg b -> exists c, SFcompare a b = Some c.
Proof.
  destruct a, b; simpl; intros Ha Hb; try contradiction; subst; eexists; reflexivity.
Qed.

Lemma SFcompare_nonneg_antisym (a b : spec_float) (c : comparison) :
  Js.nonneg a -> Js.nonneg b ->
  SFcompare a b = Some c -> SFcompare b a = Some (CompOpp c).
Proof.
  destruct a as [sa|sa| |sa ma ea], b as [sb|sb| |sb mb eb]; simpl;
    intros Ha Hb H; try contradiction; subst; simpl in *;
    try (injection H as <-; reflexivity).
  injection H as H. subst c. f_equal.
  rewrite (Z.compare_antisym ea eb).
  change (Pos.compare_cont Eq mb ma) with (Pos.compare mb ma).
  change (Pos.compare_cont Eq ma mb) with (Pos.compare ma mb).
  rewrite (Pos.compare_antisym ma mb).
  destruct (ea ?= eb)%Z; simpl; try reflexivity.
Qed.

Lemma SFcompare_nonneg_lt_trans (a b c : spec_float) :
  Js.nonneg a -> Js.nonneg b -> Js.nonneg c ->
  SFcompare a b = Some Lt -> SFcompare b c = Some Lt -> SFcompare a c = Some Lt.
Proof.
  destruct a as [sa|sa| |sa ma ea], b as [sb|sb| |sb mb eb],
    c as [sc|sc| |sc mc ec]; simpl;
    intros Ha Hb Hc H1 H2; try contradiction; subst; simpl in *;
    try discriminate; try reflexivity.
  f_equal. injection H1 as H1. injection H2 as H2.
  change (Pos.compare_cont Eq ma mb) with (Pos.compare ma mb) in H1.
  change (Pos.compare_cont Eq mb mc) with (Pos.compare mb mc) in H2.
  change (Pos.compare_cont Eq ma mc) with (Pos.compare ma mc).
  destruct (Z.compare_spec ea eb), (Z.compare_spec eb ec); try discriminate;
    destruct (Z.compare_spec ea ec); try lia; try reflexivity.
  rewrite Pos.compare_lt_iff in *. lia.
Qed.


Lemma is_nan_spec (v : float) :
  PrimFloat.is_nan v = true <-> Prim2SF v = S754_nan.
Proof.
  unfold PrimFloat.is_nan. rewrite eqb_spec. unfold SFeqb.
  destruct (Prim2SF v) as [s|s| |s m e]; simpl.
  - split; discriminate.
  - destruct s; split; discriminate.
  - split; reflexivity.
  - change (Pos.compare_cont Eq m m) with (Pos.compare m m).
    rewrite Z.compare_refl, Pos.compare_refl. destruct s; split; discriminate.
Qed.

Lemma abs_nan (v c : float) :
  PrimFloat.is_nan v = true ->
  (c <=? PrimFloat.abs v)%float = false /\ (PrimFloat.abs v <? c)%float = false.
Proof.
  intros H. apply is_nan_spec in H.
  rewrite leb_spec, ltb_spec, abs_spec, H. unfold SFleb, SFltb. simpl.
  destruct (Prim2SF c); auto.
Qed.

Lemma abs_not_nan (v : float) :
  PrimFloat.is_nan v = false -> Js.nonneg (Prim2SF (PrimFloat.abs v)).
Proof.
  intros H. rewrite abs_spec. apply SFabs_nonneg.
  intros E. apply is_nan_spec in E. congruence.
Qed.

(** Below [c] is the same as not at least [c]. *)
Lemma abs_lt_not_ge (v c : float) :
  PrimFloat.is_nan v = false -> Js.nonneg (Prim2SF c) ->
  (PrimFloat.abs v <? c)%float = negb (c <=? PrimFloat.abs v)%float.
Proof.
  intros Hv Hc. pose proof (abs_not_nan v Hv) as Ha.
  rewrite leb_spec, ltb_spec. unfold SFleb, SFltb.
  destruct (SFcompare_nonneg_some _ _ Ha Hc) as [r Hr].
  rewrite Hr, (SFcompare_nonneg_antisym _ _ _ Ha Hc Hr).
  destruct r; reflexivity.
Qed.

(** Not reaching [c1] means not reaching any larger [c2]. *)
Lemma abs_not_ge_mono (v c1 c2 : float) :
  PrimFloat.is_nan v = false -> Js.nonneg (Prim2SF c1) -> Js.nonneg (Prim2SF c2) ->
  (c1 <? c2)%float = true ->
  (c1 <=? PrimFloat.abs v)%float = false ->
  (c2 <=? PrimFloat.abs v)%float = false.
Proof.
  intros Hv H1 H2 Hlt Hge. pose proof (abs_not_nan v Hv) as Ha.
  assert (L1 : (PrimFloat.abs v <? c1)%float = true)
    by (rewrite (abs_lt_not_ge v c1 Hv H1), Hge; reflexivity).
  assert (L2 : (PrimFloat.abs v <? c2)%float = true).
  { rewrite ltb_spec in *. unfold SFltb in *.
    destruct (SFcompare (Prim2SF (PrimFloat.abs v)) (Prim2SF c1)) as [[| |]|] eqn:E1;
      try discriminate.
    destruct (SFcompare (Prim2SF c1) (Prim2SF c2)) as [[| |]|] eqn:E2;
      try discriminate.
    now rewrite (SFcompare_nonneg_lt_trans _ _ _ Ha H1 H2 E1 E2). }
  rewrite (abs_lt_not_ge v c2 Hv H2) in L2.
  now destruct (c2 <=? PrimFloat.abs v)%float.
Qed.

End Binary64Order.

(* ================================================================== *)
(** ** Severity of a cash shortage *)

Section CashActionFacts.

Import CashAction.

(** C7, as the specification lists the boundary cases: refuted, since
    a shortage of exactly 5.00 is [low], not [medium]. *)
Lemma severity_boundary_list_refuted :
  ~ (calculateSeverity 4.99%float = low
     /\ calculateSeverity 5.00%float = medium
     /\ calculateSeverity 19.99%float = medium
     /\ calculateSeverity 20.00%float = high
     /\ calculateSeverity 49.99%float = high
     /\ calculateSeverity 50.00%float = critical
     /\ calculateSeverity 99.99%float = high).
Proof.
  intros (_ & H & _). vm_compute in H. discriminate H.
Qed.

(** C7, amended. The severity of the listed boundary variances is:
    4.99, 5.00 and 19.99 are [low]; 20.00 and 49.99 are [medium];
    50.00 and 99.99 are [high]; 100.00 is [critical]. *)
Theorem severity_boundary_cases :
  calculateSeverity 4.99%float = low
  /\ calculateSeverity 5.00%float = low
  /\ calculateSeverity 19.99%float = low
  /\ calculateSeverity 20.00%float = medium
  /\ calculateSeverity 49.99%float = medium
  /\ calculateSeverity 50.00%float = high
  /\ calculateSeverity 99.99%float = high
  /\ calculateSeverity 100.00%float = critical.
Proof. repeat split; vm_compute; reflexivity. Qed.

Lemma threshold_facts :
  Js.nonneg (Prim2SF 20%float) /\ Js.nonneg (Prim2SF 50%float)
  /\ Js.nonneg (Prim2SF 100%float)
  /\ (20 <? 50)%float = true /\ (50 <? 100)%float = true.
Proof. repeat split; vm_compute; reflexivity. Qed.

(** C6. For every variance [v] of a cash shortage the severity is
    [critical] if [|v| >= 100], else [high] if [|v| >= 50], else
    [medium] if [|v| >= 20], else [low]; and the four tiers are the
    intervals below 20, from 20 to below 50, from 50 to below 100 and
    from 100 on, lower bounds included: the severity is [s] exactly
    when [|v|] lies in the interval of [s] (a [NaN] variance, which
    lies in no interval, is [low]). *)
Theorem severity_tiers (v : Js.number) :
  submitted_severity shortage v
  = (if (100 <=? PrimFloat.abs v)%float then critical
     else if (50 <=? PrimFloat.abs v)%float then high
     else if (20 <=? PrimFloat.abs v)%float then medium
     else low)
  /\ forall s : Severity,
       submitted_severity shortage v = s
       <-> (tier s (Js.Math_abs v) = true
            \/ (s = low /\ PrimFloat.is_nan v = true)).
Proof.
  split; [reflexivity|].
  destruct threshold_facts as (N20 & N50 & N100 & L1 & L2).
  unfold submitted_severity, calculateSeverity, tier, Js.ge, Js.lt, Js.Math_abs.
  destruct (PrimFloat.is_nan v) eqn:Hnan.
  - destruct (abs_nan v 20%float Hnan) as [G20 B20].
    destruct (abs_nan v 50%float Hnan) as [G50 B50].
    destruct (abs_nan v 100%float Hnan) as [G100 B100].
    rewrite G20, G50, G100, B20, B50, B100.
    intros s. split.
    + intros <-. right. split; reflexivity.
    + intros [H | [-> _]]; [destruct s; discriminate H | reflexivity].
  - rewrite (abs_lt_not_ge v 20%float Hnan N20),
            (abs_lt_not_ge v 50%float Hnan N50),
            (abs_lt_not_ge v 100%float Hnan N100).
    pose proof (abs_not_ge_mono v 20%float 50%float Hnan N20 N50 L1) as M1.
    pose proof (abs_not_ge_mono v 50%float 100%float Hnan N50 N100 L2) as M2.
    destruct (20 <=? PrimFloat.abs v)%float, (50 <=? PrimFloat.abs v)%float,
      (100 <=? PrimFloat.abs v)%float;
      try (specialize (M1 eq_refl); discriminate M1);
      try (specialize (M2 eq_refl); discriminate M2);
      intros s; simpl; (split;
        [ intros <-; left; reflexivity
        | intros [H | [_ H]]; [destruct s; (reflexivity || discriminate H)
                              | discriminate H] ]).
Qed.

End CashActionFacts.

(* ================================================================== *)
(** ** [submitWithOfflineSupport] *)

Section SubmitFacts.

Import OfflineDb OfflineSync.

Lemma enqueue_and_count_fresh (uuid : string) (now : Z) (t : string)
    (p : Js.value) (h : Hook) :
  store_get id uuid (offlineQueue (db h)) = None ->
  enqueue_and_count uuid now t p h
  = (Js.resolved {| success := true; offline := true |},
     setPendingCount (fun prev => (prev + 1)%Z)
       (log (Enqueue uuid)
          (with_db
             {| offlineQueue :=
                  store_put id
                    {| id := uuid; table := t; data := p; timestamp := now |}
                    (offlineQueue (db h));
                cachedData := cachedData (db h) |} h))).
Proof.
  intros H. unfold enqueue_and_count, addToOfflineQueue, store_add. simpl.
  rewrite H. reflexivity.
Qed.

Lemma enqueue_and_count_effect (uuid : string) (now : Z) (t : string)
    (p : Js.value) (h : Hook) :
  store_get id uuid (offlineQueue (db h)) = None ->
  let h' := snd (enqueue_and_count uuid now t p h) in
  fst (enqueue_and_count uuid now t p h) = Js.resolved {| success := true; offline := true |}
  /\ pendingCount h' = (pendingCount h + 1)%Z
  /\ List.length (getOfflineQueue (db h')) = S (List.length (getOfflineQueue (db h)))
  /\ (forall x, In x (getOfflineQueue (db h'))
        <-> x = {| id := uuid; table := t; data := p; timestamp := now |}
            \/ In x (getOfflineQueue (db h)))
  /\ isOnline h' = isOnline h
  /\ effects h' = effects h ++ [Enqueue uuid].
Proof.
  intros H. rewrite (enqueue_and_count_fresh uuid now t p h H). simpl.
  unfold getOfflineQueue, store_getAll. simpl.
  repeat split; try tauto.
  - apply (store_put_fresh_length OfflineQueueItem id
             {| id := uuid; table := t; data := p; timestamp := now |}), H.
  - apply (store_put_fresh_In OfflineQueueItem id
             {| id := uuid; table := t; data := p; timestamp := now |}), H.
  - apply (store_put_fresh_In OfflineQueueItem id
             {| id := uuid; table := t; data := p; timestamp := now |}), H.
Qed.

(** C4. Online with a failing remote insert (an error returned or an
    exception thrown), and the local enqueue succeeding: the call
    resolves, with [{ success: true, offline: true }], that is accepted
    and not persisted remotely; the record is in the queue, which has
    grown by one; and [pendingCount] has grown by exactly one. *)
Theorem online_submit_fallback (uuid : string) (now : Z) (r : InsertResult)
    (t : string) (p : Js.value) (h : Hook) :
  isOnline h = true ->
  r <> insert_ok ->
  store_get id uuid (offlineQueue (db h)) = None ->
  let res := fst (submitWithOfflineSupport uuid now r t p h) in
  let h' := snd (submitWithOfflineSupport uuid now r t p h) in
  res = Js.resolved {| success := true; offline := true |}
  /\ (exists sr, res = Js.resolved sr
        /\ accepted sr = true /\ persistedRemotely sr = false)
  /\ pendingCount h' = (pendingCount h + 1)%Z
  /\ In {| id := uuid; table := t; data := p; timestamp := now |}
        (getOfflineQueue (db h'))
  /\ List.length (getOfflineQueue (db h')) = S (List.length (getOfflineQueue (db h)))
  /\ effects h' = effects h ++ [RemoteInsert t p; Enqueue uuid].
Proof.
  intros Hon Hr Hfresh. unfold submitWithOfflineSupport. rewrite Hon.
  assert (E : match r with
              | insert_ok =>
                  (Js.resolved {| success := true; offline := false |},
                   log (RemoteInsert t p) h)
              | _ => enqueue_and_count uuid now t p (log (RemoteInsert t p) h)
              end = enqueue_and_count uuid now t p (log (RemoteInsert t p) h))
    by (destruct r; congruence).
  rewrite E. clear E.
  destruct (enqueue_and_count_effect uuid now t p (log (RemoteInsert t p) h) Hfresh)
    as (R & C & L & I & _ & F).
  cbv zeta in *. simpl in *.
  split; [exact R|].
  split; [exists {| success := true; offline := true |}; auto|].
  split; [exact C|].
  split; [apply I; auto|].
  split; [exact L|].
  rewrite F, <- app_assoc. reflexivity.
Qed.



End SubmitFacts.

(* ================================================================== *)
(** ** [syncQueue] *)

Section SyncFacts.

Import OfflineDb OfflineSync.

Lemma sync_item_frame (r : InsertResult) (item : OfflineQueueItem) (h : Hook) :
  passes (sync_item r item h) = passes h
  /\ isSyncingRef (sync_item r item h) = isSyncingRef h
  /\ isOnline (sync_item r item h) = isOnline h.
Proof. destruct r; repeat split. Qed.

Lemma submit_frame (uuid : string) (now : Z) (r : InsertResult)
    (t : string) (p : Js.value) (h : Hook) :
  let h' := snd (submitWithOfflineSupport uuid now r t p h) in
  passes h' = passes h /\ isSyncingRef h' = isSyncingRef h.
Proof.
  unfold submitWithOfflineSupport, enqueue_and_count, addToOfflineQueue.
  destruct (isOnline h), r; simpl;
    try (destruct (store_add id _ _)); simpl; auto.
Qed.

Lemma nth_error_singleton {A : Type} (x y : A) (k : nat) :
  nth_error [x] k = Some y -> k = 0 /\ x = y.
Proof.
  destruct k as [|k]; simpl.
  - intros H. injection H as H. auto.
  - destruct k; discriminate.
Qed.

Lemma step_single_flight (e : Event) (h h' : Hook) :
  single_flight h -> step e h = Some h' -> single_flight h'.
Proof.
  intros SF H.
  destruct e as [b| |k|k r|k|uuid now r t p| |]; simpl in H.
  - injection H as <-. exact SF.
  - injection H as <-. unfold call_syncQueue, guard.
    destruct SF as [[P R] | (p & P & R)].
    + rewrite R. destruct (isOnline h); simpl.
      * right. exists Reading. rewrite P. auto.
      * left. auto.
    + rewrite R, orb_true_r. right. eauto.
  - destruct SF as [[P R] | (p & P & R)]; rewrite P in H.
    + destruct k; discriminate.
    + destruct (nth_error [p] k) as [q|] eqn:E; [|discriminate].
      apply nth_error_singleton in E as [-> <-].
      destruct p; [|discriminate]. injection H as <-.
      right. exists (Looping (getOfflineQueue (db h))). simpl. rewrite ?P. auto.
  - destruct SF as [[P R] | (p & P & R)]; rewrite P in H.
    + destruct k; discriminate.
    + destruct (nth_error [p] k) as [q|] eqn:E; [|discriminate].
      apply nth_error_singleton in E as [-> <-].
      destruct p as [|[|item rest]]; try discriminate. injection H as <-.
      destruct (sync_item_frame r item h) as (FP & FR & _).
      right. exists (Looping rest). simpl. rewrite ?FP, ?P, ?FR. auto.
  - destruct SF as [[P R] | (p & P & R)]; rewrite P in H.
    + destruct k; discriminate.
    + destruct (nth_error [p] k) as [q|] eqn:E; [|discriminate].
      apply nth_error_singleton in E as [-> <-].
      destruct p as [|[|item rest]]; try discriminate. injection H as <-.
      left. simpl. rewrite ?P. auto.
  - injection H as <-.
    destruct (submit_frame uuid now r t p h) as [FP FR].
    unfold single_flight. rewrite FP, FR. exact SF.
  - injection H as <-. exact SF.
  - injection H as <-. exact SF.
Qed.

Lemma run_single_flight (es : list Event) :
  forall h h', single_flight h -> run es h = Some h' -> single_flight h'.
Proof.
  induction es as [|e es IH]; simpl; intros h h' SF H.
  - injection H as <-. exact SF.
  - destruct (step e h) as [h1|] eqn:E; [|discriminate].
    apply (IH h1 h'); [|exact H]. exact (step_single_flight e h h1 SF E).
Qed.

(** One instance on its own: in every state reached from a hook with no
    pass in flight, by any sequence of events of that instance, at
    most one of its passes is in flight; while one is, a call of
    [syncQueue] returns at its guard and changes nothing (nothing is
    read, nothing is inserted); and from an idle online hook two calls
    in a row start exactly one pass, the second being a no-op. *)
Theorem at_most_one_drain (h0 : Hook) (es : list Event) (h : Hook) :
  passes h0 = [] ->
  isSyncingRef h0 = false ->
  run es h0 = Some h ->
  List.length (passes h) <= 1
  /\ (passes h <> [] -> step CallSyncQueue h = Some h)
  /\ (passes h = [] -> isOnline h = true ->
      exists h1,
        run [CallSyncQueue] h = Some h1
        /\ run [CallSyncQueue; CallSyncQueue] h = Some h1
        /\ passes h1 = [Reading]
        /\ effects h1 = effects h).
Proof.
  intros P0 R0 Hrun.
  assert (SF : single_flight h).
  { apply (run_single_flight es h0 h); [left; auto | exact Hrun]. }
  split; [|split].
  - destruct SF as [[P _] | (p & P & _)]; rewrite P; simpl; lia.
  - intros Hne. destruct SF as [[P _] | (p & P & R)]; [contradiction|].
    simpl. unfold call_syncQueue, guard. now rewrite R, orb_true_r.
  - intros P Hon. destruct SF as [[_ R] | (p & P' & _)]; [|congruence].
    assert (E1 : call_syncQueue h
                 = with_passes [Reading] (setSyncing true h)).
    { unfold call_syncQueue, guard. rewrite Hon, R. simpl. now rewrite P. }
    assert (E2 : call_syncQueue (call_syncQueue h) = call_syncQueue h).
    { rewrite E1. unfold call_syncQueue at 1, guard. simpl.
      now rewrite orb_true_r. }
    exists (call_syncQueue h). simpl. rewrite E2, E1. auto.
Qed.

(** *** A whole pass, and the steps it is made of *)

Lemma run_items (remote : OfflineQueueItem -> InsertResult)
    (items : list OfflineQueueItem) (tail : list Event) :
  forall h : Hook,
    run (map (fun item => InsertSettled 0 (remote item)) items ++ tail)
        (with_passes [Looping items] h)
    = run tail
        (with_passes [Looping []]
           (fold_left (fun acc item => sync_item (remote item) item acc) items h)).
Proof.
  induction items as [|item rest IH]; intros h.
  - reflexivity.
  - cbn [map app run fold_left].
    replace (step (InsertSettled 0 (remote item))
               (with_passes [Looping (item :: rest)] h))
      with (Some (with_passes [Looping rest] (sync_item (remote item) item h)))
      by (destruct (remote item); reflexivity).
    apply IH.
Qed.

Lemma fold_sync_item_passes (remote : OfflineQueueItem -> InsertResult)
    (items : list OfflineQueueItem) :
  forall h : Hook,
    passes (fold_left (fun acc item => sync_item (remote item) item acc) items h)
    = passes h.
Proof.
  induction items as [|item rest IH]; intros h; simpl; [reflexivity|].
  rewrite IH. apply sync_item_frame.
Qed.

Lemma with_passes_same (h : Hook) : with_passes (passes h) h = h.
Proof. destruct h; reflexivity. Qed.

(** Run without interruption, the steps of a pass amount to
    [syncQueue]. *)
Lemma run_pass_schedule (remote : OfflineQueueItem -> InsertResult) (h : Hook) :
  passes h = [] ->
  guard h = false ->
  run (pass_schedule remote (getOfflineQueue (db h))) h = Some (syncQueue remote h).
Proof.
  intros P G. unfold pass_schedule, syncQueue. rewrite G.
  set (h1 := setSyncing true h).
  set (h2 := snd (read_queue h1)).
  change (read_queue h1) with (getOfflineQueue (db h), h2). cbv iota beta.
  set (h3 := fold_left _ (getOfflineQueue (db h)) h2).
  assert (S1 : step CallSyncQueue h = Some (with_passes [Reading] h1)).
  { cbn [step]. unfold call_syncQueue. rewrite G. fold h1.
    replace (passes h1) with (@nil Pass) by (symmetry; exact P). reflexivity. }
  assert (S2 : step (QueueRead 0) (with_passes [Reading] h1)
               = Some (with_passes [Looping (getOfflineQueue (db h))] h2))
    by reflexivity.
  assert (S3 : step (PassDone 0) (with_passes [Looping []] h3)
               = Some (setSyncing false (with_passes [] h3)))
    by reflexivity.
  assert (P3 : passes h3 = [])
    by (subst h3; rewrite fold_sync_item_passes; exact P).
  cbn [run]. rewrite S1, S2, run_items. fold h3. cbn [run]. rewrite S3.
  rewrite <- P3, with_passes_same. reflexivity.
Qed.

(** C2. A queue of exactly three items, the remote insert failing for
    the second one only: after one pass of [syncQueue] the first and
    the third item have been removed from the store, the second is
    still queued and was not counted down, all three inserts were
    attempted (the pass went on after the failure), the engine is idle
    again, and [pendingCount] is 1. *)
Theorem drain_partial_failure (i1 i2 i3 : OfflineQueueItem)
    (cache : store CacheEntry) (count : Z)
    (remote : OfflineQueueItem -> InsertResult) :
  NoDup [id i1; id i2; id i3] ->
  remote i1 = insert_ok ->
  remote i2 <> insert_ok ->
  remote i3 = insert_ok ->
  let h := {| db := {| offlineQueue := [i1; i2; i3]; cachedData := cache |};
              isOnline := true; pendingCount := count;
              isSyncing := false; isSyncingRef := false;
              passes := []; effects := [] |} in
  let h' := syncQueue remote h in
  run (pass_schedule remote [i1; i2; i3]) h = Some h'
  /\ getOfflineQueue (db h') = [i2]
  /\ pendingCount h' = 1%Z
  /\ effects h'
     = [ReadQueue; RemoteInsert (table i1) (data i1); Dequeue (id i1);
        RemoteInsert (table i2) (data i2)]
       ++ match remote i2 with
          | insert_throws => [ConsoleError (id i2)]
          | _ => []
          end
       ++ [RemoteInsert (table i3) (data i3); Dequeue (id i3)]
  /\ isSyncingRef h' = false
  /\ isSyncing h' = false
  /\ passes h' = [].
Proof.
  intros ND R1 R2 R3 h h'.
  split; [exact (run_pass_schedule remote h eq_refl eq_refl)|].
  inversion ND as [|? ? N1 ND1]; subst.
  inversion ND1 as [|? ? N2 _]; subst.
  assert (E11 : String.eqb (id i1) (id i1) = true) by apply String.eqb_refl.
  assert (E33 : String.eqb (id i3) (id i3) = true) by apply String.eqb_refl.
  assert (E21 : String.eqb (id i2) (id i1) = false)
    by (apply String.eqb_neq; intros E; apply N1; rewrite E; simpl; auto).
  assert (E31 : String.eqb (id i3) (id i1) = false)
    by (apply String.eqb_neq; intros E; apply N1; rewrite E; simpl; auto).
  assert (E23 : String.eqb (id i2) (id i3) = false)
    by (apply String.eqb_neq; intros E; apply N2; rewrite <- E; simpl; auto).
  subst h'. unfold syncQueue, h. cbn -[Z.of_nat Z.max Z.sub String.eqb].
  rewrite R1, R3.
  destruct (remote i2) eqn:R; [congruence| |];
    cbn -[Z.max Z.sub String.eqb];
    rewrite ?E11, ?E21, ?E31; cbn -[Z.max Z.sub String.eqb];
    rewrite ?E33, ?E23; cbn -[String.eqb];
    repeat split; reflexivity.
Qed.

(** *** The pending count and the queue *)

Lemma submit_cases (uuid : string) (now : Z) (r : InsertResult)
    (t : string) (p : Js.value) (h : Hook) :
  let h' := snd (submitWithOfflineSupport uuid now r t p h) in
  (db h' = db h /\ pendingCount h' = pendingCount h)
  \/ (store_get id uuid (offlineQueue (db h)) = None
      /\ offlineQueue (db h')
         = store_put id {| id := uuid; table := t; data := p; timestamp := now |}
             (offlineQueue (db h))
      /\ pendingCount h' = (pendingCount h + 1)%Z).
Proof.
  unfold submitWithOfflineSupport, enqueue_and_count, addToOfflineQueue, store_add.
  destruct (isOnline h), r; simpl;
    try (left; split; reflexivity);
    destruct (store_get id uuid (offlineQueue (db h))) eqn:E; simpl;
    try (left; split; reflexivity); right; auto.
Qed.

Lemma step_consistent (e : Event) (h h' : Hook) :
  is_clear e = false -> consistent h -> step e h = Some h' -> consistent h'.
Proof.
  intros NC (ND & C & SF & R) H.
  pose proof (step_single_flight e h h' SF H) as SF'.
  destruct e as [b| |k|k r|k|uuid now r t p| |]; simpl in H.
  - injection H as <-. exact (conj ND (conj C (conj SF' R))).
  - injection H as <-. unfold call_syncQueue in *.
    destruct (guard h); [exact (conj ND (conj C (conj SF' R)))|].
    split; [exact ND|]. split; [exact C|]. split; [exact SF'|].
    simpl. intros p Hp. apply in_app_or in Hp as [Hp | [<- | []]].
    + now apply R.
    + simpl. split; [constructor | apply incl_nil_l].
  - destruct (nth_error (passes h) k) as [[|rest]|] eqn:E; try discriminate.
    injection H as <-.
    split; [exact ND|]. split; [reflexivity|]. split; [exact SF'|].
    destruct SF as [[P _] | (p & P & _)]; rewrite P in E;
      [destruct k; discriminate|].
    apply nth_error_singleton in E as [-> ->].
    simpl. rewrite P. simpl. intros p [<- | []]. simpl.
    split; [exact ND | apply incl_refl].
  - destruct (nth_error (passes h) k) as [[|[|item rest]]|] eqn:E; try discriminate.
    injection H as <-.
    destruct SF as [[P _] | (p & P & _)]; rewrite P in E;
      [destruct k; discriminate|].
    apply nth_error_singleton in E as [-> ->].
    destruct (R (Looping (item :: rest))) as [NDr INr]; [rewrite P; now left|].
    simpl in NDr, INr. inversion NDr as [|? ? Hitem NDrest]; subst.
    assert (Hin : In (id item) (keys id (offlineQueue (db h))))
      by (apply INr; now left).
    assert (Hrest : incl (map id rest) (keys id (offlineQueue (db h))))
      by (intros a Ha; apply INr; now right).
    destruct (sync_item_frame r item h) as (FP & _).
    assert (Pnew : forall q,
               In q (replace_nth 0 (Looping rest) (passes (sync_item r item h)))
               -> q = Looping rest).
    { rewrite FP, P. simpl. intros q [<- | []]. reflexivity. }
    destruct r.
    + split; [apply store_delete_NoDup, ND|].
      split.
      * simpl. rewrite C. unfold getOfflineQueue, store_getAll.
        pose proof (store_delete_present_length OfflineQueueItem id
                      (id item) (offlineQueue (db h)) ND Hin).
        lia.
      * split; [exact SF'|]. intros q Hq. apply Pnew in Hq. subst q.
        split; [exact NDrest|]. simpl. intros a Ha.
        apply store_delete_other_key; [|now apply Hrest].
        intros ->. contradiction.
    + split; [exact ND|]. split; [exact C|]. split; [exact SF'|].
      intros q Hq. apply Pnew in Hq. subst q. split; assumption.
    + split; [exact ND|]. split; [exact C|]. split; [exact SF'|].
      intros q Hq. apply Pnew in Hq. subst q. split; assumption.
  - destruct (nth_error (passes h) k) as [[|[|item rest]]|] eqn:E; try discriminate.
    injection H as <-.
    split; [exact ND|]. split; [exact C|]. split; [exact SF'|].
    destruct SF as [[P _] | (p & P & _)]; rewrite P in E;
      [destruct k; discriminate|].
    apply nth_error_singleton in E as [-> ->].
    simpl. rewrite P. simpl. tauto.
  - injection H as <-.
    destruct (submit_frame uuid now r t p h) as [FP _].
    destruct (submit_cases uuid now r t p h) as [[D Cn] | (F & Q & Cn)];
      cbv zeta in *.
    + unfold consistent. rewrite FP, D, Cn. repeat split; try assumption;
        now apply R.
    + set (it := {| id := uuid; table := t; data := p; timestamp := now |}) in *.
      assert (F' : store_get id (id it) (offlineQueue (db h)) = None) by exact F.
      unfold consistent, getOfflineQueue, store_getAll in *. rewrite FP, Q, Cn.
      split; [now apply store_put_fresh_NoDup|].
      split.
      * rewrite (store_put_fresh_length OfflineQueueItem id it _ F'), C. lia.
      * split; [exact SF'|]. intros q Hq. destruct (R q Hq) as [A B].
        split; [exact A|]. intros a Ha. apply B in Ha.
        unfold keys in *. apply in_map_iff in Ha as (x & Hx & Hq').
        apply in_map_iff. exists x. split; [exact Hx|].
        apply (store_put_fresh_In OfflineQueueItem id it x _ F'). now right.
  - injection H as <-. exact (conj ND (conj eq_refl (conj SF' R))).
  - discriminate NC.
Qed.

Lemma run_consistent (es : list Event) :
  forall h h' : Hook,
    forallb (fun e => negb (is_clear e)) es = true ->
    consistent h -> run es h = Some h' -> consistent h'.
Proof.
  induction es as [|e es IH]; simpl; intros h h' NC K H.
  - injection H as <-. exact K.
  - apply andb_true_iff in NC as [NC1 NC2]. apply negb_true_iff in NC1.
    destruct (step e h) as [h1|] eqn:E; [|discriminate].
    exact (IH h1 h' NC2 (step_consistent e h h1 NC1 K E) H).
Qed.

Lemma initial_loading (d : database) (online : bool) :
  NoDup (keys id (offlineQueue d)) -> loading (initial d online).
Proof.
  intros ND. split; [exact ND|]. split; [left; split; reflexivity|].
  intros p [].
Qed.

Lemma loading_read_consistent (h : Hook) :
  loading h ->
  consistent
    (setPendingCount (fun _ => Z.of_nat (List.length (getOfflineQueue (db h)))) h).
Proof.
  intros (ND & SF & R). split; [exact ND|]. split; [reflexivity|].
  split; [exact SF|]. simpl. intros p Hp. rewrite (R p Hp). simpl.
  split; [constructor | apply incl_nil_l].
Qed.

Lemma step_loading (e : Event) (h h' : Hook) :
  is_clear e = false -> loading h -> step e h = Some h' ->
  loading h' \/ consistent h'.
Proof.
  intros NC L H. pose proof L as (ND & SF & R).
  pose proof (step_single_flight e h h' SF H) as SF'.
  destruct e as [b| |k|k r|k|uuid now r t p| |]; simpl in H.
  - injection H as <-. left. exact L.
  - injection H as <-. left. unfold call_syncQueue in *.
    destruct (guard h); [exact L|].
    split; [exact ND|]. split; [exact SF'|].
    simpl. intros p Hp. apply in_app_or in Hp as [Hp | [<- | []]]; auto.
  - destruct (nth_error (passes h) k) as [[|rest]|] eqn:E; try discriminate.
    injection H as <-. right.
    split; [exact ND|]. split; [reflexivity|]. split; [exact SF'|].
    destruct SF as [[P _] | (p & P & _)]; rewrite P in E;
      [destruct k; discriminate|].
    apply nth_error_singleton in E as [-> ->].
    simpl. rewrite P. simpl. intros p [<- | []]. simpl.
    split; [exact ND | apply incl_refl].
  - destruct (nth_error (passes h) k) as [[|[|item rest]]|] eqn:E; try discriminate.
    apply nth_error_In, R in E. discriminate E.
  - destruct (nth_error (passes h) k) as [[|[|item rest]]|] eqn:E; try discriminate.
    apply nth_error_In, R in E. discriminate E.
  - injection H as <-. left.
    destruct (submit_frame uuid now r t p h) as [FP _].
    split; [|split; [exact SF' | rewrite FP; exact R]].
    destruct (submit_cases uuid now r t p h) as [[D _] | (F & Q & _)];
      cbv zeta in *.
    + rewrite D. exact ND.
    + rewrite Q.
      exact (store_put_fresh_NoDup OfflineQueueItem id
               {| id := uuid; table := t; data := p; timestamp := now |}
               (offlineQueue (db h)) F ND).
  - injection H as <-. right. apply loading_read_consistent, L.
  - discriminate NC.
Qed.

Lemma run_loading (es : list Event) :
  forall h h' : Hook,
    forallb (fun e => negb (is_clear e)) es = true ->
    In LoadPendingCount es ->
    loading h -> run es h = Some h' -> consistent h'.
Proof.
  induction es as [|e es IH]; simpl; intros h h' NC HL L H; [contradiction|].
  apply andb_true_iff in NC as [NC1 NC2].
  destruct (step e h) as [h1|] eqn:E; [|discriminate].
  assert (NC1' : is_clear e = false) by now apply negb_true_iff.
  destruct (step_loading e h h1 NC1' L E) as [L1 | K1].
  - destruct HL as [-> | HL].
    + simpl in E. injection E as <-.
      exact (run_consistent es _ h' NC2 (loading_read_consistent h L) H).
    + exact (IH h1 h' NC2 HL L1 H).
  - exact (run_consistent es h1 h' NC2 K1 H).
Qed.

(** [clearCache] does not reach the count: one offline submission
    followed by [clearCache] leaves an idle hook whose [pendingCount]
    is 1 over an empty queue. *)
Lemma pending_count_drifts_after_clear :
  ~ (forall (es : list Event) (h : Hook),
       run es (initial initOfflineDb false) = Some h ->
       idle h ->
       pendingCount h = Z.of_nat (List.length (getOfflineQueue (db h)))).
Proof.
  intros H.
  specialize (H [LoadPendingCount;
                 Submit "a" 0%Z insert_ok "cash_actions" Js.null;
                 ClearCache]
                _ eq_refl eq_refl).
  discriminate H.
Qed.

(** X22. One instance that is the only one to change the queue: over a
    database whose queue has each id once, once the hook has loaded
    its count ([loadPendingCount] of the mount effect), after any
    sequence of its own submissions, drain passes and connectivity
    changes (no [clearCache], no other instance at work), whenever no
    pass is in flight [pendingCount] is the number of items in the
    queue. *)
Theorem pending_count_matches_queue (d : database) (online : bool)
    (es : list Event) (h : Hook) :
  NoDup (keys id (offlineQueue d)) ->
  forallb (fun e => negb (is_clear e)) es = true ->
  In LoadPendingCount es ->
  run es (initial d online) = Some h ->
  idle h ->
  pendingCount h = Z.of_nat (List.length (getOfflineQueue (db h))).
Proof.
  intros ND NC HL Hrun _.
  exact (proj1 (proj2 (run_loading es _ h NC HL (initial_loading d online ND) Hrun))).
Qed.

End SyncFacts.

(* ================================================================== *)
(** ** Concrete runs *)

Section Instances.

Import OfflineDb OfflineSync Sample.

(** An enqueue, a pass that has read the queue, and a second call of
    [syncQueue] in the middle of it. *)
Lemma at_most_one_drain_witness :
  exists h,
    run [Submit "a" 1%Z insert_throws "cash_actions" shortage_record;
         CallSyncQueue; QueueRead 0; CallSyncQueue]
        (initial initOfflineDb true) = Some h
    /\ passes h = [Looping [item_a]]
    /\ List.length (passes h) <= 1
    /\ step CallSyncQueue h = Some h.
Proof.
  eexists. split; [vm_compute; reflexivity|]. split; [reflexivity|].
  pose proof (at_most_one_drain (initial initOfflineDb true)
                [Submit "a" 1%Z insert_throws "cash_actions" shortage_record;
                 CallSyncQueue; QueueRead 0; CallSyncQueue]
                _ eq_refl eq_refl eq_refl) as (A & B & _).
  split; [exact A|]. apply B. discriminate.
Defined.

Lemma drain_partial_failure_witness :
  NoDup [id item_a; id item_b; id item_c]
  /\ remote_b_fails item_a = insert_ok
  /\ remote_b_fails item_b <> insert_ok
  /\ remote_b_fails item_c = insert_ok
  /\ getOfflineQueue
       (db (syncQueue remote_b_fails
              (initial {| offlineQueue := [item_a; item_b; item_c];
                          cachedData := [] |} true)))
     = [item_b]
  /\ pendingCount
       (syncQueue remote_b_fails
          (initial {| offlineQueue := [item_a; item_b; item_c];
                      cachedData := [] |} true))
     = 1%Z.
Proof.
  assert (ND : NoDup [id item_a; id item_b; id item_c]).
  { repeat constructor; simpl; intuition discriminate. }
  assert (R2 : remote_b_fails item_b <> insert_ok) by discriminate.
  pose proof (drain_partial_failure item_a item_b item_c [] 0%Z remote_b_fails
                ND eq_refl R2 eq_refl) as (_ & Q & C & _).
  exact (conj ND (conj eq_refl (conj R2 (conj eq_refl (conj Q C))))).
Defined.

Lemma pending_count_matches_queue_witness :
  exists h,
    NoDup (keys id (offlineQueue initOfflineDb))
    /\ run [CallSyncQueue; QueueRead 0; LoadPendingCount; PassDone 0;
            Submit "a" 1%Z insert_error "cash_actions" shortage_record;
            Submit "b" 2%Z insert_ok "store_actions" Js.null;
            CallSyncQueue; QueueRead 0;
            Submit "c" 3%Z insert_throws "cash_actions" (Js.object []);
            InsertSettled 0 insert_ok; PassDone 0]
           (initial initOfflineDb true) = Some h
    /\ idle h
    /\ getOfflineQueue (db h) = [item_c]
    /\ pendingCount h = Z.of_nat (List.length (getOfflineQueue (db h))).
Proof.
  eexists. split; [constructor|]. split; [vm_compute; reflexivity|].
  split; [reflexivity|]. split; [reflexivity|].
  apply (pending_count_matches_queue initOfflineDb true
           [CallSyncQueue; QueueRead 0; LoadPendingCount; PassDone 0;
            Submit "a" 1%Z insert_error "cash_actions" shortage_record;
            Submit "b" 2%Z insert_ok "store_actions" Js.null;
            CallSyncQueue; QueueRead 0;
            Submit "c" 3%Z insert_throws "cash_actions" (Js.object []);
            InsertSettled 0 insert_ok; PassDone 0]).
  - constructor.
  - reflexivity.
  - simpl; tauto.
  - vm_compute; reflexivity.
  - reflexivity.
Defined.

Lemma online_submit_fallback_witness :
  isOnline (initial initOfflineDb true) = true
  /\ insert_throws <> insert_ok
  /\ store_get id "a" (offlineQueue (db (initial initOfflineDb true))) = None
  /\ fst (submitWithOfflineSupport "a" 1%Z insert_throws "cash_actions"
            shortage_record (initial initOfflineDb true))
     = Js.resolved {| success := true; offline := true |}
  /\ pendingCount
       (snd (submitWithOfflineSupport "a" 1%Z insert_throws "cash_actions"
               shortage_record (initial initOfflineDb true)))
     = 1%Z.
Proof.
  assert (R : insert_throws <> insert_ok) by discriminate.
  pose proof (online_submit_fallback "a" 1%Z insert_throws "cash_actions"
                shortage_record (initial initOfflineDb true) eq_refl R eq_refl)
    as (A & _ & C & _).
  exact (conj eq_refl (conj R (conj eq_refl (conj A C)))).
Defined.


End Instances.

(* ================================================================== *)
(** * Further properties *)


Section ObjectStoreOrder.

Variable V : Type.
Variable key : V -> string.

Lemma store_get_put_other (v : V) (k : string) (st : store V) :
  k <> key v -> store_get key k (store_put key v st) = store_get key k st.
Proof.
  intros Hk. unfold store_get.
  assert (Ev : String.eqb (key v) k = false)
    by (apply String.eqb_neq; congruence).
  induction st as [|x rest IH]; simpl.
  - now rewrite Ev.
  - destruct (String.compare (key v) (key x)) eqn:C; simpl.
    + apply String.compare_eq_iff in C. rewrite Ev, <- C, Ev. reflexivity.
    + now rewrite Ev.
    + destruct (String.eqb (key x) k); [reflexivity | exact IH].
Qed.

Lemma store_put_put_same (v1 v2 : V) (st : store V) :
  key v1 = key v2 ->
  store_put key v2 (store_put key v1 st) = store_put key v2 st.
Proof.
  intros K.
  induction st as [|x rest IH]; simpl.
  - now rewrite <- K, compare_refl.
  - rewrite <- K.
    destruct (String.compare (key v1) (key x)) eqn:C; simpl.
    + now rewrite <- K, compare_refl.
    + now rewrite <- K, compare_refl.
    + rewrite <- K, C. now rewrite IH.
Qed.

Lemma store_delete_twice (k : string) (st : store V) :
  store_delete key k (store_delete key k st) = store_delete key k st.
Proof.
  apply store_delete_absent, store_delete_not_key.
Qed.

End ObjectStoreOrder.

Section OfflineDbMore.

Import OfflineDb.

(** X2. [removeFromOfflineQueue(id)] removes the item with that id and
    nothing else, leaves the cache alone, and a second removal of the
    same id changes nothing. *)
Theorem remove_exactly_that_id (k : string) (d : database) :
  (forall x, In x (getOfflineQueue (removeFromOfflineQueue k d))
             <-> In x (getOfflineQueue d) /\ id x <> k)
  /\ cachedData (removeFromOfflineQueue k d) = cachedData d
  /\ removeFromOfflineQueue k (removeFromOfflineQueue k d)
     = removeFromOfflineQueue k d.
Proof.
  split; [|split].
  - intros x. apply store_delete_In.
  - reflexivity.
  - unfold removeFromOfflineQueue. simpl.
    now rewrite store_delete_twice.
Qed.

(** X3. Removing an id that is not queued is not an error and leaves
    the database exactly as it was. *)
Theorem remove_missing_id_is_noop (k : string) (d : database) :
  ~ In k (map id (getOfflineQueue d)) ->
  removeFromOfflineQueue k d = d.
Proof. apply removeFromOfflineQueue_missing. Qed.

(** X4. With an id that is not queued yet, [addToOfflineQueue] on any
    database resolves with that id; the queue then holds the new item,
    with the given table, data and time, together with exactly the
    items it held before, so it is one longer; the cache is untouched. *)
Theorem enqueue_keeps_the_rest (uuid : string) (now : Z) (t : string)
    (p : Js.value) (d : database) :
  ~ In uuid (map id (getOfflineQueue d)) ->
  exists d',
    addToOfflineQueue uuid now t p d = Js.resolved (uuid, d')
    /\ (forall x, In x (getOfflineQueue d')
                  <-> x = {| id := uuid; table := t; data := p; timestamp := now |}
                      \/ In x (getOfflineQueue d))
    /\ List.length (getOfflineQueue d') = S (List.length (getOfflineQueue d))
    /\ cachedData d' = cachedData d.
Proof.
  intros H.
  assert (F : store_get id
                (id {| id := uuid; table := t; data := p; timestamp := now |})
                (offlineQueue d) = None)
    by (apply store_get_None_notin; exact H).
  unfold addToOfflineQueue, store_add. rewrite F.
  eexists. split; [reflexivity|].
  unfold getOfflineQueue, store_getAll. simpl.
  split; [|split; [|reflexivity]].
  - intros x. exact (store_put_fresh_In OfflineQueueItem id _ x _ F).
  - exact (store_put_fresh_length OfflineQueueItem id _ _ F).
Qed.

(** X5. The cache keeps one entry per key and the last write wins:
    writing a key twice leaves the database as if only the second
    write had been made. *)
Theorem cache_last_write_wins (n1 n2 : Z) (k t1 t2 : string)
    (v1 v2 : Js.value) (d : database) :
  cacheData n2 k t2 v2 (cacheData n1 k t1 v1 d) = cacheData n2 k t2 v2 d
  /\ getCachedData k (cacheData n2 k t2 v2 (cacheData n1 k t1 v1 d))
     = Js.or v2 Js.null.
Proof.
  assert (E : cacheData n2 k t2 v2 (cacheData n1 k t1 v1 d)
              = cacheData n2 k t2 v2 d).
  { unfold cacheData. simpl. f_equal.
    now apply (store_put_put_same CacheEntry key). }
  split; [exact E|]. rewrite E.
  unfold getCachedData, cacheData. simpl.
  now rewrite (store_get_put_same CacheEntry key
                 {| key := k; cache_table := t2; cache_data := v2;
                    cache_timestamp := n2 |}).
Qed.

(** X6. Writing one cache key does not change what [getCachedData]
    returns for any other key, nor the queue. *)
Theorem cache_other_keys_untouched (now : Z) (k k' t : string)
    (v : Js.value) (d : database) :
  k' <> k ->
  getCachedData k' (cacheData now k t v d) = getCachedData k' d
  /\ getOfflineQueue (cacheData now k t v d) = getOfflineQueue d.
Proof.
  intros H. split; [|reflexivity].
  unfold getCachedData, cacheData. simpl.
  now rewrite (store_get_put_other CacheEntry key
                 {| key := k; cache_table := t; cache_data := v;
                    cache_timestamp := now |} k' _ H).
Qed.

(** X7. [getCachedData] never returns [undefined] or any other falsy
    value than [null]: on every database and key its result is [null]
    or truthy; it is [null] on a new database and after [clearCache]. *)
Theorem cached_value_null_or_truthy (k : string) (d : database) :
  (getCachedData k d = Js.null \/ Js.truthy (getCachedData k d) = true)
  /\ getCachedData k d <> Js.undefined
  /\ getCachedData k (clearCache d) = Js.null
  /\ getCachedData k initOfflineDb = Js.null.
Proof.
  split; [|split; [|split; reflexivity]];
    unfold getCachedData, Js.or;
    destruct (store_get key k (cachedData d)) as [e|]; simpl;
    try (left; reflexivity); try discriminate;
    destruct (Js.truthy (cache_data e)) eqn:T;
    try (left; reflexivity); try discriminate.
  - right. exact T.
  - intros E. rewrite E in T. discriminate T.
Qed.

End OfflineDbMore.

Section DrainFacts.

Import OfflineDb OfflineSync Drain.

Lemma filter_filter {A : Type} (f g : A -> bool) (l : list A) :
  filter f (filter g l) = filter (fun x => g x && f x) l.
Proof.
  induction l as [|a l IH]; simpl; [reflexivity|].
  destruct (g a); simpl; [destruct (f a)|]; now rewrite IH.
Qed.

Lemma fold_sync_outcome (remote : OfflineQueueItem -> InsertResult)
    (items : list OfflineQueueItem) :
  forall h : Hook,
    let h' := fold_left (fun acc item => sync_item (remote item) item acc) items h in
    offlineQueue (db h')
    = filter (fun x => negb (existsb (String.eqb (id x)) (ok_ids remote items)))
        (offlineQueue (db h))
    /\ cachedData (db h') = cachedData (db h)
    /\ effects h' = effects h ++ flat_map (item_effects remote) items
    /\ isOnline h' = isOnline h
    /\ isSyncing h' = isSyncing h
    /\ isSyncingRef h' = isSyncingRef h
    /\ ((Z.of_nat (List.length (ok_ids remote items)) <= pendingCount h)%Z ->
        pendingCount h'
        = (pendingCount h - Z.of_nat (List.length (ok_ids remote items)))%Z).
Proof.
  induction items as [|a rest IH]; intros h; cbn zeta.
  - simpl. repeat split; try (now rewrite app_nil_r); try lia.
    induction (offlineQueue (db h)) as [|x q IHq]; simpl; congruence.
  - cbn [fold_left].
    specialize (IH (sync_item (remote a) a h)). cbv zeta in IH.
    destruct IH as (Q & C & E & O & S1 & S2 & P).
    rewrite Q, C, E, O, S1, S2. clear Q C E O S1 S2.
    unfold ok_ids, item_effects in *. cbn [filter flat_map].
    destruct (remote a) eqn:R; cbn [is_ok map List.length existsb sync_item
      db effects isOnline isSyncing isSyncingRef pendingCount log with_db
      setPendingCount removeFromOfflineQueue offlineQueue cachedData] in *.
    + split.
      { unfold store_delete. rewrite filter_filter. apply filter_ext.
        intros x. rewrite (String.eqb_sym (id x) (id a)).
        destruct (String.eqb (id a) (id x)); reflexivity. }
      split; [reflexivity|]. split; [now rewrite <- !app_assoc|].
      split; [reflexivity|]. split; [reflexivity|]. split; [reflexivity|].
      intros H. rewrite P; lia.
    + split; [reflexivity|]. split; [reflexivity|].
      split; [now rewrite <- !app_assoc|]. repeat split. exact P.
    + split; [reflexivity|]. split; [reflexivity|].
      split; [now rewrite <- !app_assoc|]. repeat split. exact P.
Qed.

Lemma NoDup_map_In_eq {A B : Type} (f : A -> B) (l : list A) (x y : A) :
  NoDup (map f l) -> In x l -> In y l -> f x = f y -> x = y.
Proof.
  induction l as [|a l IH]; simpl; intros ND Hx Hy E; [contradiction|].
  inversion ND as [|? ? Ha ND']; subst.
  destruct Hx as [-> | Hx], Hy as [-> | Hy]; auto.
  - exfalso. apply Ha. rewrite E. now apply in_map.
  - exfalso. apply Ha. rewrite <- E. now apply in_map.
Qed.

Lemma existsb_ok_ids (remote : OfflineQueueItem -> InsertResult)
    (q : list OfflineQueueItem) (x : OfflineQueueItem) :
  NoDup (map id q) -> In x q ->
  existsb (String.eqb (id x)) (ok_ids remote q) = is_ok (remote x).
Proof.
  intros ND Hx. unfold ok_ids.
  destruct (is_ok (remote x)) eqn:R.
  - apply existsb_exists. exists (id x). split; [|apply String.eqb_refl].
    apply in_map, filter_In. auto.
  - destruct (existsb _ _) eqn:E; [|reflexivity].
    apply existsb_exists in E as (k & Hk & Ek).
    apply String.eqb_eq in Ek. subst k.
    apply in_map_iff in Hk as (y & Ey & Hy).
    apply filter_In in Hy as [Hy Ry].
    rewrite (NoDup_map_In_eq id q y x ND Hy Hx Ey) in Ry. congruence.
Qed.

Lemma filter_ext_in_list {A : Type} (f g : A -> bool) (l : list A) :
  (forall x, In x l -> f x = g x) -> filter f l = filter g l.
Proof.
  induction l as [|a l IH]; simpl; intros H; [reflexivity|].
  rewrite (H a) by now left. rewrite IH by (intros; apply H; now right).
  reflexivity.
Qed.

Lemma filter_split_length {A : Type} (f : A -> bool) (l : list A) :
  List.length (filter f l) + List.length (filter (fun x => negb (f x)) l)
  = List.length l.
Proof.
  induction l as [|a l IH]; simpl; [reflexivity|].
  destruct (f a); simpl; lia.
Qed.

(** A whole pass: what is left, what is counted, what was done. *)
Lemma syncQueue_outcome (remote : OfflineQueueItem -> InsertResult) (h : Hook) :
  guard h = false ->
  NoDup (map id (getOfflineQueue (db h))) ->
  let h' := syncQueue remote h in
  getOfflineQueue (db h')
  = filter (fun x => negb (is_ok (remote x))) (getOfflineQueue (db h))
  /\ pendingCount h' = Z.of_nat (List.length (getOfflineQueue (db h')))
  /\ effects h'
     = effects h ++ ReadQueue :: flat_map (item_effects remote) (getOfflineQueue (db h))
  /\ cachedData (db h') = cachedData (db h)
  /\ isOnline h' = isOnline h
  /\ isSyncing h' = false
  /\ isSyncingRef h' = false.
Proof.
  intros G ND. cbv zeta. unfold syncQueue. rewrite G.
  unfold read_queue. cbv iota beta.
  set (q := getOfflineQueue (db (setSyncing true h))).
  set (h2 := setPendingCount _ (log ReadQueue (setSyncing true h))).
  destruct (fold_sync_outcome remote q h2) as (Q & C & E & O & _ & _ & P).
  cbv zeta in *.
  set (h3 := fold_left _ q h2) in *.
  change (getOfflineQueue (db h)) with q in *.
  assert (Q' : getOfflineQueue (db (setSyncing false h3))
               = filter (fun x => negb (is_ok (remote x))) q).
  { change (getOfflineQueue (db (setSyncing false h3))) with (offlineQueue (db h3)).
    rewrite Q. change (offlineQueue (db h2)) with q.
    apply filter_ext_in_list. intros x Hx.
    now rewrite (existsb_ok_ids remote q x ND Hx). }
  split; [exact Q'|]. rewrite Q'.
  split.
  - change (pendingCount (setSyncing false h3)) with (pendingCount h3).
    assert (L : List.length (ok_ids remote q)
                + List.length (filter (fun x => negb (is_ok (remote x))) q)
                = List.length q).
    { unfold ok_ids. rewrite length_map. apply filter_split_length. }
    change (pendingCount h2) with (Z.of_nat (List.length q)) in P.
    rewrite P; lia.
  - split.
    + change (effects (setSyncing false h3)) with (effects h3). rewrite E.
      change (effects h2) with (effects h ++ [ReadQueue]).
      now rewrite <- app_assoc.
    + split; [exact C|]. split; [exact O|]. split; reflexivity.
Qed.

Lemma run_app (es1 es2 : list Event) :
  forall h : Hook,
    run (es1 ++ es2) h
    = match run es1 h with
      | Some h1 => run es2 h1
      | None => None
      end.
Proof.
  induction es1 as [|e es1 IH]; intros h; simpl; [reflexivity|].
  destruct (step e h); [apply IH | reflexivity].
Qed.

Lemma syncQueue_passes (remote : OfflineQueueItem -> InsertResult) (h : Hook) :
  passes (syncQueue remote h) = passes h.
Proof.
  unfold syncQueue. destruct (guard h); [reflexivity|].
  unfold read_queue. cbv iota beta.
  change (passes (setSyncing false ?x)) with (passes x).
  now rewrite fold_sync_item_passes.
Qed.

(** X8. A pass of [syncQueue] that gets past its guard and runs to its
    end with nothing else happening in between (its steps taken one
    right after the other: no submission, no other pass and no
    [clearCache] while it is in flight), over a queue of any length:
    what is left in the store is exactly the items whose insert did not
    succeed, in their order; [pendingCount] ends as the number of items
    left, whatever it was before; each item of the queue was sent once,
    in order, and only the successful ones were removed; both syncing
    flags are down again. *)
Theorem syncQueue_keeps_exactly_the_failed
    (remote : OfflineQueueItem -> InsertResult) (h : Hook) :
  passes h = [] ->
  guard h = false ->
  NoDup (map id (getOfflineQueue (db h))) ->
  run (pass_schedule remote (getOfflineQueue (db h))) h = Some (syncQueue remote h)
  /\ getOfflineQueue (db (syncQueue remote h))
     = filter (fun x => negb (is_ok (remote x))) (getOfflineQueue (db h))
  /\ pendingCount (syncQueue remote h)
     = Z.of_nat (List.length
                   (filter (fun x => negb (is_ok (remote x)))
                      (getOfflineQueue (db h))))
  /\ effects (syncQueue remote h)
     = effects h ++ ReadQueue :: flat_map (item_effects remote) (getOfflineQueue (db h))
  /\ isSyncing (syncQueue remote h) = false
  /\ isSyncingRef (syncQueue remote h) = false.
Proof.
  intros P0 G ND.
  split; [exact (run_pass_schedule remote h P0 G)|].
  destruct (syncQueue_outcome remote h G ND) as (Q & P & E & _ & _ & S1 & S2).
  cbv zeta in *. rewrite Q in P. auto.
Qed.

Lemma NoDup_map_filter {A B : Type} (f : A -> B) (g : A -> bool) (l : list A) :
  NoDup (map f l) -> NoDup (map f (filter g l)).
Proof.
  induction l as [|a l IH]; simpl; intros ND; [constructor|].
  inversion ND as [|? ? Ha ND']; subst.
  destruct (g a); simpl; auto. constructor; auto.
  intros Hin. apply Ha. apply in_map_iff in Hin as (y & Ey & Hy).
  apply filter_In in Hy as [Hy _]. rewrite <- Ey. now apply in_map.
Qed.

(** X9. Draining again after a pass that left items behind, both
    passes running to their end one right after the other with nothing
    else happening between or during them (no submission, no other
    pass, no [clearCache]): the second pass reads the queue once and
    sends exactly the items the first pass failed on, none of those
    already removed; what it leaves are the items that failed both
    times. *)
Theorem second_pass_retries_only_the_rest
    (remote1 remote2 : OfflineQueueItem -> InsertResult) (h : Hook) :
  passes h = [] ->
  guard h = false ->
  NoDup (map id (getOfflineQueue (db h))) ->
  let left := filter (fun x => negb (is_ok (remote1 x))) (getOfflineQueue (db h)) in
  let h1 := syncQueue remote1 h in
  let h2 := syncQueue remote2 h1 in
  run (pass_schedule remote1 (getOfflineQueue (db h)) ++ pass_schedule remote2 left) h
  = Some h2
  /\ effects h2 = effects h1 ++ ReadQueue :: flat_map (item_effects remote2) left
  /\ getOfflineQueue (db h2)
     = filter (fun x => negb (is_ok (remote1 x)) && negb (is_ok (remote2 x)))
         (getOfflineQueue (db h))
  /\ pendingCount h2 = Z.of_nat (List.length (getOfflineQueue (db h2))).
Proof.
  intros P0 G ND left h1 h2.
  destruct (syncQueue_outcome remote1 h G ND) as (Q1 & _ & _ & _ & O1 & _ & R1).
  cbv zeta in *. fold h1 in Q1, O1, R1. fold left in Q1.
  assert (G1 : guard h1 = false).
  { unfold guard in *. rewrite O1, R1.
    destruct (isOnline h); [reflexivity | discriminate G]. }
  assert (ND1 : NoDup (map id (getOfflineQueue (db h1)))).
  { rewrite Q1. subst left. now apply NoDup_map_filter. }
  assert (P1 : passes h1 = []).
  { subst h1. now rewrite syncQueue_passes. }
  destruct (syncQueue_outcome remote2 h1 G1 ND1) as (Q2 & P2 & E2 & _).
  cbv zeta in *. fold h2 in Q2, P2, E2.
  split.
  { rewrite run_app, (run_pass_schedule remote1 h P0 G). fold h1.
    rewrite <- Q1. exact (run_pass_schedule remote2 h1 P1 G1). }
  rewrite Q1 in Q2, E2.
  split; [exact E2|]. split; [|exact P2].
  rewrite Q2. subst left. apply filter_filter.
Qed.

End DrainFacts.

Section HookInvariants.

Import OfflineDb OfflineSync Drain.

Lemma run_invariant (I : Hook -> Prop) (ok : Event -> bool) :
  (forall e h h', ok e = true -> I h -> step e h = Some h' -> I h') ->
  forall es h h',
    forallb ok es = true -> I h -> run es h = Some h' -> I h'.
Proof.
  intros Hstep. induction es as [|e es IH]; simpl; intros h h' Hok Hi H.
  - injection H as <-. exact Hi.
  - apply andb_true_iff in Hok as [H1 H2].
    destruct (step e h) as [h1|] eqn:E; [|discriminate].
    exact (IH h1 h' H2 (Hstep e h h1 H1 Hi E) H).
Qed.

Lemma forallb_true {A : Type} (l : list A) : forallb (fun _ => true) l = true.
Proof. induction l; simpl; auto. Qed.

Lemma submit_count (uuid : string) (now : Z) (r : InsertResult)
    (t : string) (p : Js.value) (h : Hook) :
  let h' := snd (submitWithOfflineSupport uuid now r t p h) in
  (pendingCount h' = pendingCount h \/ pendingCount h' = (pendingCount h + 1)%Z)
  /\ isSyncing h' = isSyncing h
  /\ isOnline h' = isOnline h.
Proof.
  unfold submitWithOfflineSupport, enqueue_and_count, addToOfflineQueue.
  destruct (isOnline h) eqn:O, r; simpl;
    try (destruct (store_add id _ _)); simpl; rewrite ?O; auto.
Qed.

Lemma step_count_nonneg (e : Event) (h h' : Hook) :
  (0 <= pendingCount h)%Z -> step e h = Some h' -> (0 <= pendingCount h')%Z.
Proof.
  intros C H.
  destruct e as [b| |k|k r|k|uuid now r t p| |]; simpl in H.
  - injection H as <-. exact C.
  - injection H as <-. unfold call_syncQueue. destruct (guard h); exact C.
  - destruct (nth_error (passes h) k) as [[|rest]|]; try discriminate.
    injection H as <-. simpl. lia.
  - destruct (nth_error (passes h) k) as [[|[|item rest]]|]; try discriminate.
    injection H as <-. destruct r; simpl; lia.
  - destruct (nth_error (passes h) k) as [[|[|item rest]]|]; try discriminate.
    injection H as <-. exact C.
  - injection H as <-.
    destruct (submit_count uuid now r t p h) as ([E | E] & _); cbv zeta in E;
      rewrite E; lia.
  - injection H as <-. simpl. lia.
  - injection H as <-. exact C.
Qed.

(** X10. [pendingCount] never goes below zero: in every state the hook
    reaches from its first render, by any sequence of events, calls of
    [clearCache] included. *)
Theorem pending_count_never_negative (d : database) (online : bool)
    (es : list Event) (h : Hook) :
  run es (initial d online) = Some h ->
  (0 <= pendingCount h)%Z.
Proof.
  intros H.
  apply (run_invariant (fun h => (0 <= pendingCount h)%Z) (fun _ => true))
    with (es := es) (h := initial d online); auto.
  - intros e h1 h2 _. apply step_count_nonneg.
  - apply forallb_true.
  - simpl. lia.
Qed.

Lemma submit_trichotomy (uuid : string) (now : Z) (r : InsertResult)
    (t : string) (p : Js.value) (h : Hook) :
  let res := fst (submitWithOfflineSupport uuid now r t p h) in
  let h' := snd (submitWithOfflineSupport uuid now r t p h) in
  ((res = Js.resolved {| success := true; offline := false |}
    /\ isOnline h = true /\ r = insert_ok
    /\ db h' = db h /\ pendingCount h' = pendingCount h
    /\ effects h' = effects h ++ [RemoteInsert t p])
   \/ (res = Js.resolved {| success := true; offline := true |}
       /\ (isOnline h = false \/ r <> insert_ok)
       /\ In {| id := uuid; table := t; data := p; timestamp := now |}
            (getOfflineQueue (db h'))
       /\ pendingCount h' = (pendingCount h + 1)%Z)
   \/ (res = Js.rejected "ConstraintError"
       /\ In uuid (map id (getOfflineQueue (db h)))
       /\ db h' = db h /\ pendingCount h' = pendingCount h)).
Proof.
  cbv zeta.
  assert (K : forall h0 : Hook,
             db h0 = db h -> pendingCount h0 = pendingCount h ->
             (fst (enqueue_and_count uuid now t p h0)
              = Js.resolved {| success := true; offline := true |}
              /\ In {| id := uuid; table := t; data := p; timestamp := now |}
                   (getOfflineQueue (db (snd (enqueue_and_count uuid now t p h0))))
              /\ pendingCount (snd (enqueue_and_count uuid now t p h0))
                 = (pendingCount h + 1)%Z)
             \/ (fst (enqueue_and_count uuid now t p h0) = Js.rejected "ConstraintError"
                 /\ In uuid (map id (getOfflineQueue (db h)))
                 /\ snd (enqueue_and_count uuid now t p h0) = h0)).
  { intros h0 D C.
    unfold enqueue_and_count, addToOfflineQueue, store_add. simpl. rewrite D.
    destruct (store_get id uuid (offlineQueue (db h))) as [x|] eqn:F; simpl.
    - right. split; [reflexivity|]. split; [|reflexivity].
      destruct (store_get_None_notin OfflineQueueItem id uuid (offlineQueue (db h)))
        as [_ N].
      destruct (in_dec string_dec uuid (map id (getOfflineQueue (db h))))
        as [I | I]; [exact I|].
      rewrite (N I) in F. discriminate F.
    - left. split; [reflexivity|]. split; [|now rewrite C].
      unfold getOfflineQueue, store_getAll.
      apply (store_put_fresh_In OfflineQueueItem id
               {| id := uuid; table := t; data := p; timestamp := now |}).
      + exact F.
      + now left. }
  unfold submitWithOfflineSupport.
  destruct (isOnline h) eqn:O.
  - destruct r.
    + left. simpl. repeat split; reflexivity.
    + destruct (K (log (RemoteInsert t p) h) eq_refl eq_refl)
        as [(A & B & C) | (A & B & C)].
      * right; left. repeat split; auto. right; discriminate.
      * right; right. rewrite C. repeat split; auto.
    + destruct (K (log (RemoteInsert t p) h) eq_refl eq_refl)
        as [(A & B & C) | (A & B & C)].
      * right; left. repeat split; auto. right; discriminate.
      * right; right. rewrite C. repeat split; auto.
  - destruct (K h eq_refl eq_refl) as [(A & B & C) | (A & B & C)].
    + right; left. repeat split; auto.
    + right; right. rewrite C. repeat split; auto.
Qed.


(** X11. The three ways a call of [submitWithOfflineSupport] can end.
    It resolves as sent ([offline: false]) only when the hook is online
    and the insert succeeded, and then neither the database nor
    [pendingCount] changes.  It resolves as queued ([offline: true])
    only when no insert succeeded, and then the record is in the queue
    and [pendingCount] is one higher.  It rejects only when the local
    [add] fails, and then nothing changes but the log of the attempted
    insert.  It never resolves with [success: false]; it calls the
    remote store once when online and never when offline. *)
Theorem submit_outcomes (uuid : string) (now : Z) (r : InsertResult)
    (t : string) (p : Js.value) (h : Hook) :
  let res := fst (submitWithOfflineSupport uuid now r t p h) in
  let h' := snd (submitWithOfflineSupport uuid now r t p h) in
  ((res = Js.resolved {| success := true; offline := false |}
    /\ isOnline h = true /\ r = insert_ok
    /\ db h' = db h /\ pendingCount h' = pendingCount h
    /\ effects h' = effects h ++ [RemoteInsert t p])
   \/ (res = Js.resolved {| success := true; offline := true |}
       /\ (isOnline h = false \/ r <> insert_ok)
       /\ In {| id := uuid; table := t; data := p; timestamp := now |}
            (getOfflineQueue (db h'))
       /\ pendingCount h' = (pendingCount h + 1)%Z)
   \/ (res = Js.rejected "ConstraintError"
       /\ In uuid (map id (getOfflineQueue (db h)))
       /\ db h' = db h /\ pendingCount h' = pendingCount h))
  /\ exists tail,
       effects h'
       = effects h ++ (if isOnline h then [RemoteInsert t p] else []) ++ tail
       /\ (tail = [] \/ tail = [Enqueue uuid]).
Proof.
  cbv zeta.
  assert (T : forall h0 : Hook,
             exists tail,
               effects (snd (enqueue_and_count uuid now t p h0))
               = effects h0 ++ tail
               /\ (tail = [] \/ tail = [Enqueue uuid])).
  { intros h0. unfold enqueue_and_count, addToOfflineQueue.
    destruct (store_add id _ _); simpl.
    - exists [Enqueue uuid]. auto.
    - exists []. now rewrite app_nil_r; auto. }
  split; [exact (submit_trichotomy uuid now r t p h)|].
  unfold submitWithOfflineSupport.
  destruct (isOnline h) eqn:O.
  - destruct r; simpl.
    + exists []. auto.
    + destruct (T (log (RemoteInsert t p) h)) as (tail & E & Ht).
      exists tail. rewrite E. simpl. now rewrite <- app_assoc.
    + destruct (T (log (RemoteInsert t p) h)) as (tail & E & Ht).
      exists tail. rewrite E. simpl. now rewrite <- app_assoc.
  - destruct (T h) as (tail & E & Ht). exists tail. now rewrite E.
Qed.

End HookInvariants.

Section HookMore.

Import OfflineDb OfflineSync Drain.

Lemma step_flags_mirror (e : Event) (h h' : Hook) :
  isSyncing h = isSyncingRef h -> step e h = Some h' ->
  isSyncing h' = isSyncingRef h'.
Proof.
  intros M H.
  destruct e as [b| |k|k r|k|uuid now r t p| |]; simpl in H.
  - injection H as <-. exact M.
  - injection H as <-. unfold call_syncQueue. destruct (guard h); [exact M|reflexivity].
  - destruct (nth_error (passes h) k) as [[|rest]|]; try discriminate.
    injection H as <-. exact M.
  - destruct (nth_error (passes h) k) as [[|[|item rest]]|]; try discriminate.
    injection H as <-. destruct r; exact M.
  - destruct (nth_error (passes h) k) as [[|[|item rest]]|]; try discriminate.
    injection H as <-. reflexivity.
  - injection H as <-.
    destruct (submit_count uuid now r t p h) as (_ & S & _).
    destruct (submit_frame uuid now r t p h) as (_ & R).
    cbv zeta in *. congruence.
  - injection H as <-. exact M.
  - injection H as <-. exact M.
Qed.

(** X12. The [isSyncing] state the hook returns always agrees with the
    [isSyncingRef] that guards [syncQueue]; hence the sync button of
    the layout is disabled exactly when a click on it would return at
    the guard and do nothing, and a click on the enabled button starts
    a pass. *)
Theorem sync_button_disabled_iff_noop (d : database) (online : bool)
    (es : list Event) (h : Hook) :
  run es (initial d online) = Some h ->
  isSyncing h = isSyncingRef h
  /\ (Layout.sync_button_disabled h = true <-> step CallSyncQueue h = Some h)
  /\ (Layout.sync_button_disabled h = false <->
      step CallSyncQueue h
      = Some (with_passes (passes h ++ [Reading]) (setSyncing true h))).
Proof.
  intros H.
  assert (M : isSyncing h = isSyncingRef h).
  { apply (run_invariant (fun h => isSyncing h = isSyncingRef h) (fun _ => true))
      with (es := es) (h := initial d online); auto.
    - intros e h1 h2 _. apply step_flags_mirror.
    - apply forallb_true. }
  split; [exact M|].
  unfold Layout.sync_button_disabled. simpl. unfold call_syncQueue, guard.
  rewrite M.
  assert (N : forall h1 : Hook,
             h1 <> with_passes (passes h1 ++ [Reading]) (setSyncing true h1)).
  { intros h1 E. apply (f_equal (fun x => List.length (passes x))) in E.
    simpl in E. rewrite length_app in E. simpl in E. lia. }
  destruct (negb (isOnline h) || isSyncingRef h) eqn:G.
  - split; split; auto; try discriminate.
    intros E. injection E as E. destruct (N h E).
  - split; split; auto; try discriminate.
    intros E. injection E as E. symmetry in E. destruct (N h E).
Qed.

Lemma In_replace_nth {A : Type} (k : nat) (x y : A) (l : list A) :
  In y (replace_nth k x l) -> y = x \/ In y l.
Proof.
  revert k. induction l as [|a l IH]; intros [|k]; simpl; auto.
  - intros [E | H]; auto.
  - intros [E | H]; auto. destruct (IH k H); auto.
Qed.

Lemma In_remove_nth {A : Type} (k : nat) (y : A) (l : list A) :
  In y (remove_nth k l) -> In y l.
Proof.
  revert k. induction l as [|a l IH]; intros [|k]; simpl; auto.
  intros [E | H]; auto. right. exact (IH k H).
Qed.

Lemma submit_queue_grows (uuid : string) (now : Z) (r : InsertResult)
    (t : string) (p : Js.value) (h : Hook) (x : OfflineQueueItem) :
  In x (getOfflineQueue (db h)) ->
  In x (getOfflineQueue (db (snd (submitWithOfflineSupport uuid now r t p h)))).
Proof.
  intros Hx.
  destruct (submit_cases uuid now r t p h) as [[D _] | (F & Q & _)];
    cbv zeta in *; unfold getOfflineQueue, store_getAll in *.
  - now rewrite D.
  - rewrite Q.
    apply (store_put_fresh_In OfflineQueueItem id
             {| id := uuid; table := t; data := p; timestamp := now |} x _ F).
    now right.
Qed.

Lemma step_keeps_outsider (x : OfflineQueueItem) (e : Event) (h h' : Hook) :
  takes_snapshot_or_clears e = false ->
  In x (getOfflineQueue (db h)) /\ outside_snapshots x h ->
  step e h = Some h' ->
  In x (getOfflineQueue (db h')) /\ outside_snapshots x h'.
Proof.
  intros NE [Hx Out] H. unfold outside_snapshots in *.
  destruct e as [b| |k|k r|k|uuid now r t p| |]; simpl in H; try discriminate NE.
  - injection H as <-. auto.
  - injection H as <-. unfold call_syncQueue. destruct (guard h); [auto|].
    split; [exact Hx|]. simpl. intros q Hq.
    apply in_app_or in Hq as [Hq | [<- | []]]; [now apply Out | simpl; tauto].
  - destruct (nth_error (passes h) k) as [[|[|item rest]]|] eqn:E; try discriminate.
    injection H as <-.
    pose proof (Out _ (nth_error_In _ _ E)) as Oi. simpl in Oi.
    destruct (sync_item_frame r item h) as (FP & _).
    split.
    + destruct r; simpl; try exact Hx.
      unfold getOfflineQueue, store_getAll in *. simpl.
      apply store_delete_In. split; [exact Hx|]. intros E'. apply Oi. now left.
    + simpl. rewrite FP. intros q Hq.
      apply In_replace_nth in Hq as [-> | Hq]; [|now apply Out].
      simpl. intros Hin. apply Oi. now right.
  - destruct (nth_error (passes h) k) as [[|[|item rest]]|] eqn:E; try discriminate.
    injection H as <-. split; [exact Hx|]. simpl. intros q Hq.
    apply In_remove_nth in Hq. now apply Out.
  - injection H as <-.
    destruct (submit_frame uuid now r t p h) as [FP _]. cbv zeta in FP.
    split; [now apply submit_queue_grows | rewrite FP; exact Out].
  - injection H as <-. auto.
Qed.

(** X13. A pass works on the snapshot it read: an item in the queue
    that is in no snapshot of a pass in flight (one enqueued after the
    pass read the queue, say) is neither sent nor removed by any
    sequence of events in which no pass reads the queue anew and
    [clearCache] is not called; it is still queued, and still outside
    every snapshot, when the pass has finished. *)
Theorem later_items_wait_for_next_pass (x : OfflineQueueItem)
    (es : list Event) (h h' : Hook) :
  In x (getOfflineQueue (db h)) ->
  outside_snapshots x h ->
  forallb (fun e => negb (takes_snapshot_or_clears e)) es = true ->
  run es h = Some h' ->
  In x (getOfflineQueue (db h')) /\ outside_snapshots x h'.
Proof.
  intros Hx Out NE H.
  apply (run_invariant
           (fun h => In x (getOfflineQueue (db h)) /\ outside_snapshots x h)
           (fun e => negb (takes_snapshot_or_clears e)))
    with (es := es) (h := h); auto.
  intros e h1 h2 Hok. apply step_keeps_outsider. now apply negb_true_iff.
Qed.

Lemma step_offline_quiet (e : Event) (h h' : Hook) :
  goes_online e = false ->
  isOnline h = false /\ passes h = []
  /\ forallb (fun e => negb (is_remote_insert e)) (effects h) = true ->
  step e h = Some h' ->
  isOnline h' = false /\ passes h' = []
  /\ forallb (fun e => negb (is_remote_insert e)) (effects h') = true.
Proof.
  intros NE (O & P & Q) H.
  destruct e as [b| |k|k r|k|uuid now r t p| |]; simpl in H.
  - injection H as <-. destruct b; [discriminate NE|]. auto.
  - injection H as <-. unfold call_syncQueue, guard. rewrite O. simpl. auto.
  - rewrite P in H. destruct k; discriminate.
  - rewrite P in H. destruct k; discriminate.
  - rewrite P in H. destruct k; discriminate.
  - injection H as <-.
    destruct (submit_frame uuid now r t p h) as [FP _]. cbv zeta in FP.
    destruct (submit_count uuid now r t p h) as (_ & _ & FO). cbv zeta in FO.
    split; [congruence|]. split; [congruence|].
    unfold submitWithOfflineSupport, enqueue_and_count, addToOfflineQueue.
    rewrite O. destruct (store_add id _ _); simpl; [|exact Q].
    rewrite forallb_app, Q. reflexivity.
  - injection H as <-. auto.
  - injection H as <-. auto.
Qed.

(** X14. While the hook is offline nothing is sent: from a first render
    offline, after any sequence of events in which connectivity does
    not come back, no remote insert has been attempted, no pass has
    started, and the hook is still offline. *)
Theorem offline_hook_sends_nothing (d : database) (es : list Event) (h : Hook) :
  forallb (fun e => negb (goes_online e)) es = true ->
  run es (initial d false) = Some h ->
  forallb (fun e => negb (is_remote_insert e)) (effects h) = true
  /\ passes h = []
  /\ isOnline h = false.
Proof.
  intros NE H.
  assert (I : isOnline h = false /\ passes h = []
              /\ forallb (fun e => negb (is_remote_insert e)) (effects h) = true).
  { apply (run_invariant
             (fun h => isOnline h = false /\ passes h = []
                       /\ forallb (fun e => negb (is_remote_insert e)) (effects h) = true)
             (fun e => negb (goes_online e)))
      with (es := es) (h := initial d false); auto.
    intros e h1 h2 Hok. apply step_offline_quiet. now apply negb_true_iff. }
  tauto.
Qed.

End HookMore.

Section SeverityMore.

Import CashAction SeverityOrder.

Lemma SFabs_SFopp (x : spec_float) : SFabs (SFopp x) = SFabs x.
Proof. destruct x; reflexivity. Qed.

Lemma abs_opp (v : float) : PrimFloat.abs (- v)%float = PrimFloat.abs v.
Proof.
  rewrite <- (SF2Prim_Prim2SF (PrimFloat.abs (- v))).
  rewrite <- (SF2Prim_Prim2SF (PrimFloat.abs v)).
  now rewrite !abs_spec, opp_spec, SFabs_SFopp.
Qed.

(** X15. The severity depends on the size of the variance only, not on
    its sign: [calculateSeverity(-v)] is [calculateSeverity(v)] for
    every number [v]. *)
Theorem severity_ignores_sign (v : Js.number) :
  calculateSeverity (- v)%float = calculateSeverity v.
Proof.
  unfold calculateSeverity, Js.Math_abs. now rewrite abs_opp.
Qed.

Lemma SFcompare_nonneg_eq (a b : spec_float) :
  Js.nonneg a -> Js.nonneg b -> SFcompare a b = Some Eq -> a = b.
Proof.
  destruct a as [sa|sa| |sa ma ea], b as [sb|sb| |sb mb eb]; simpl;
    intros Ha Hb H; try contradiction; subst; try discriminate; try reflexivity.
  injection H as H.
  change (Pos.compare_cont Eq ma mb) with (Pos.compare ma mb) in H.
  destruct (Z.compare_spec ea eb); try discriminate.
  apply Pos.compare_eq in H. now subst.
Qed.

Lemma SFleb_nonneg_trans (a b c : spec_float) :
  Js.nonneg a -> Js.nonneg b -> Js.nonneg c ->
  SFleb a b = true -> SFleb b c = true -> SFleb a c = true.
Proof.
  intros Ha Hb Hc. unfold SFleb.
  destruct (SFcompare a b) as [[| |]|] eqn:E1; try discriminate;
    destruct (SFcompare b c) as [[| |]|] eqn:E2; try discriminate; intros _ _.
  - apply SFcompare_nonneg_eq in E1; auto. subst. now rewrite E2.
  - apply SFcompare_nonneg_eq in E1; auto. subst. now rewrite E2.
  - apply SFcompare_nonneg_eq in E2; auto. subst. now rewrite E1.
  - now rewrite (SFcompare_nonneg_lt_trans a b c Ha Hb Hc E1 E2).
Qed.

Lemma leb_not_nan (x y : float) :
  (x <=? y)%float = true ->
  PrimFloat.is_nan x = false /\ PrimFloat.is_nan y = false.
Proof.
  rewrite leb_spec. unfold SFleb. intros H.
  split; destruct (PrimFloat.is_nan _) eqn:N; auto;
    apply is_nan_spec in N; rewrite N in H.
  - discriminate H.
  - destruct (Prim2SF x); discriminate H.
Qed.

Lemma abs_abs_not_nan (v : float) :
  PrimFloat.is_nan (PrimFloat.abs v) = false -> PrimFloat.is_nan v = false.
Proof.
  intros H. destruct (PrimFloat.is_nan v) eqn:N; [|reflexivity].
  apply is_nan_spec in N.
  assert (N' : Prim2SF (PrimFloat.abs v) = S754_nan)
    by (now rewrite abs_spec, N).
  apply is_nan_spec in N'. congruence.
Qed.

Lemma threshold_reached_mono (c v1 v2 : float) :
  Js.nonneg (Prim2SF c) ->
  (PrimFloat.abs v1 <=? PrimFloat.abs v2)%float = true ->
  (c <=? PrimFloat.abs v1)%float = true ->
  (c <=? PrimFloat.abs v2)%float = true.
Proof.
  intros Hc H12 H1.
  destruct (leb_not_nan _ _ H12) as [N1 N2].
  apply abs_abs_not_nan in N1, N2.
  pose proof (abs_not_nan v1 N1) as A1. pose proof (abs_not_nan v2 N2) as A2.
  rewrite leb_spec in *.
  exact (SFleb_nonneg_trans _ _ _ Hc A1 A2 H1 H12).
Qed.

(** X16. The severity grows with the size of the variance: if
    [|v1| <= |v2|] then the severity of [v1] is not above that of
    [v2], in the order low, medium, high, critical. *)
Theorem severity_monotone (v1 v2 : Js.number) :
  Js.ge (Js.Math_abs v2) (Js.Math_abs v1) = true ->
  rank (calculateSeverity v1) <= rank (calculateSeverity v2).
Proof.
  unfold Js.ge, Js.Math_abs. intros H.
  destruct threshold_facts as (N20 & N50 & N100 & _).
  pose proof (threshold_reached_mono 20%float v1 v2 N20 H) as M20.
  pose proof (threshold_reached_mono 50%float v1 v2 N50 H) as M50.
  pose proof (threshold_reached_mono 100%float v1 v2 N100 H) as M100.
  unfold calculateSeverity, Js.ge, Js.Math_abs.
  destruct (100 <=? PrimFloat.abs v1)%float;
    [rewrite (M100 eq_refl); simpl; lia|].
  destruct (50 <=? PrimFloat.abs v1)%float;
    [rewrite (M50 eq_refl); destruct (100 <=? PrimFloat.abs v2)%float; simpl; lia|].
  destruct (20 <=? PrimFloat.abs v1)%float;
    [rewrite (M20 eq_refl);
     destruct (100 <=? PrimFloat.abs v2)%float, (50 <=? PrimFloat.abs v2)%float;
     simpl; lia|].
  simpl. lia.
Qed.

End SeverityMore.

Section ChecklistFacts.

Import StoreAction Checklist.

Lemma toggle_fields (now k : string) (items : list ChecklistItem) :
  map id (toggleChecklistItem now k items) = map id items
  /\ map label (toggleChecklistItem now k items) = map label items
  /\ map completed (toggleChecklistItem now k items)
     = map (fun i => xorb (completed i) (String.eqb (id i) k)) items.
Proof.
  unfold toggleChecklistItem. rewrite !map_map.
  repeat split; apply map_ext; intros i;
    destruct (String.eqb (id i) k); simpl; auto;
    now destruct (completed i).
Qed.

Lemma after_toggles_fields (clicks : list (string * string)) :
  forall items : list ChecklistItem,
    map id (after_toggles clicks items) = map id items
    /\ map label (after_toggles clicks items) = map label items
    /\ map completed (after_toggles clicks items)
       = map (fun i => xorb (completed i)
                         (Nat.odd (times_toggled (id i) clicks))) items.
Proof.
  unfold after_toggles.
  induction clicks as [|[now k] rest IH]; intros items; cbn [fold_left fst snd].
  - repeat split. rewrite <- (map_id (map completed items)) at 1.
    rewrite map_map. apply map_ext. intros i. simpl. now destruct (completed i).
  - destruct (IH (toggleChecklistItem now k items)) as (I & L & C).
    destruct (toggle_fields now k items) as (I1 & L1 & _).
    split; [congruence|]. split; [congruence|].
    rewrite C. unfold toggleChecklistItem. rewrite map_map.
    apply map_ext. intros i. unfold times_toggled. cbn [filter snd].
    destruct (String.eqb (id i) k) eqn:E; simpl.
    + apply String.eqb_eq in E. subst k. rewrite String.eqb_refl.
      cbn [List.length]. rewrite Nat.odd_succ, <- Nat.negb_odd.
      destruct (completed i), (Nat.odd _); reflexivity.
    + rewrite String.eqb_sym, E. reflexivity.
Qed.

(** X17. Clicking checklist rows: after any sequence of toggles the
    list has the same rows in the same order, with the same ids and
    labels, and a row is completed exactly when its original state has
    been flipped an odd number of times, that is, when the number of
    clicks on its id is odd (for a row that began completed: even). *)
Theorem toggles_flip_by_parity (clicks : list (string * string))
    (items : list ChecklistItem) :
  map id (after_toggles clicks items) = map id items
  /\ map label (after_toggles clicks items) = map label items
  /\ map completed (after_toggles clicks items)
     = map (fun i => xorb (completed i)
                       (Nat.odd (times_toggled (id i) clicks))) items.
Proof. apply after_toggles_fields. Qed.

Lemma toggle_stamped (now k : string) (items : list ChecklistItem) :
  Forall stamped items -> Forall stamped (toggleChecklistItem now k items).
Proof.
  unfold toggleChecklistItem. intros H. apply Forall_map.
  eapply Forall_impl; [|exact H].
  intros i Hi. destruct (String.eqb (id i) k); [|exact Hi].
  unfold stamped. simpl. now destruct (completed i).
Qed.

(** X18. [completed_at] follows [completed]: starting from
    [initializeChecklist], where nothing is completed and no date is
    set, after any sequence of toggles every row carries a completion
    date exactly when it is completed. *)
Theorem completion_dates_follow_flags (type : ActionType)
    (clicks : list (string * string)) :
  Forall stamped (after_toggles clicks (initializeChecklist type)).
Proof.
  assert (G : forall items, Forall stamped items ->
                            Forall stamped (after_toggles clicks items)).
  { unfold after_toggles.
    induction clicks as [|c rest IH]; simpl; intros items H; [exact H|].
    apply IH, toggle_stamped, H. }
  apply G. unfold initializeChecklist. apply Forall_map, Forall_forall.
  intros i _. reflexivity.
Qed.

Lemma Forall_map_bool {A : Type} (f : A -> bool) (l : list A) :
  Forall (fun x => f x = true) l <-> forallb (fun b => b) (map f l) = true.
Proof.
  induction l as [|a l IH]; simpl.
  - split; auto.
  - rewrite andb_true_iff, <- IH. split.
    + intros H. inversion H; auto.
    + intros [H1 H2]. constructor; auto.
Qed.

(** X19. From a new opening or closing checklist the submit button
    (no submission being in flight) is enabled exactly when every one
    of its rows has been clicked an odd number of times; in particular
    it is disabled before any click. *)
Theorem checklist_enabled_iff_all_clicked_odd (clicks : list (string * string)) :
  (submit_disabled false opening_checklist
     (after_toggles clicks (initializeChecklist opening_checklist)) = false
   <-> Forall (fun t => Nat.odd (times_toggled (template_id t) clicks) = true)
         OPENING_CHECKLIST_ITEMS)
  /\ (submit_disabled false closing_checklist
        (after_toggles clicks (initializeChecklist closing_checklist)) = false
      <-> Forall (fun t => Nat.odd (times_toggled (template_id t) clicks) = true)
            CLOSING_CHECKLIST_ITEMS)
  /\ submit_disabled false opening_checklist (initializeChecklist opening_checklist)
     = true
  /\ submit_disabled false closing_checklist (initializeChecklist closing_checklist)
     = true.
Proof.
  assert (G : forall (type : ActionType) (templates : list ItemTemplate),
             is_maintenance type = false ->
             initializeChecklist type
             = map (fun item =>
                      {| id := template_id item; label := template_label item;
                         completed := false; completed_at := None |}) templates ->
             (submit_disabled false type
                (after_toggles clicks (initializeChecklist type)) = false
              <-> Forall (fun t => Nat.odd (times_toggled (template_id t) clicks) = true)
                    templates)).
  { intros type templates M E.
    set (items := after_toggles clicks (initializeChecklist type)).
    assert (D : submit_disabled false type items = false
                <-> Forall (fun i => completed i = true) items).
    { unfold submit_disabled, totalCount. rewrite M. simpl.
      rewrite Nat.ltb_ge. pose proof (completedCount_le items).
      rewrite <- completedCount_all. lia. }
    rewrite D, Forall_map_bool. subst items.
    destruct (after_toggles_fields clicks (initializeChecklist type)) as (_ & _ & C).
    rewrite C, E, map_map. simpl.
    rewrite <- (map_map (fun t => Nat.odd (times_toggled (template_id t) clicks))
                  (fun b => b)), map_id.
    symmetry. apply Forall_map_bool. }
  split; [apply G; reflexivity|]. split; [apply G; reflexivity|].
  split; reflexivity.
Qed.

End ChecklistFacts.

Section CashFormFacts.

Import OfflineDb OfflineSync CashAction Drain CashForm.

Variable parseFloat : string -> Js.number.

(** X20. [handleSubmit] of the cash form, with a profile and a store
    selected, never loses the record: when it resolves, the record
    either was inserted remotely (online, insert successful) or is in
    the local queue under table ['cash_actions'].  Only in the first
    case is a notification sent and the record shown in the list; in
    both the form is reset and closed and [submitting] is off again.
    It rejects only if the local enqueue does, and then [submitting]
    stays on.  Without a profile or a store it does nothing. *)
Theorem cash_submit_never_loses_the_record (uuid : string) (now : Z)
    (r : InsertResult) (row_id created_at : string)
    (pr : Profile) (st : Store) (c : Component) (h : Hook) :
  let action := newAction parseFloat pr st (isOnline h) (form c) in
  let out := handleSubmit parseFloat uuid now r row_id created_at
               (Some pr) (Some st) c h in
  let sent := isOnline h && is_ok r in
  let c' := snd (fst out) in
  let h' := snd out in
  notifications c'
  = notifications c
    ++ (if sent then [notification parseFloat pr st (form c)] else [])
  /\ actions c'
     = (if sent then [displayed_row row_id created_at action] else []) ++ actions c
  /\ ((fst (fst out) = Js.resolved tt
       /\ submitting c' = false /\ showForm c' = false /\ submitSuccess c' = true
       /\ form c' = empty_form
       /\ (if sent
           then db h' = db h /\ pendingCount h' = pendingCount h
           else In {| id := uuid; table := "cash_actions"; data := action;
                      timestamp := now |} (getOfflineQueue (db h'))
                /\ pendingCount h' = (pendingCount h + 1)%Z))
      \/ (fst (fst out) = Js.rejected "ConstraintError"
          /\ sent = false
          /\ In uuid (map id (getOfflineQueue (db h)))
          /\ submitting c' = true /\ form c' = form c
          /\ db h' = db h))
  /\ handleSubmit parseFloat uuid now r row_id created_at None (Some st) c h
     = (Js.resolved tt, c, h)
  /\ handleSubmit parseFloat uuid now r row_id created_at (Some pr) None c h
     = (Js.resolved tt, c, h).
Proof.
  cbv zeta.
  set (action := newAction parseFloat pr st (isOnline h) (form c)).
  unfold handleSubmit. fold action.
  pose proof (submit_trichotomy uuid now r "cash_actions" action h) as O.
  destruct (submitWithOfflineSupport uuid now r "cash_actions" action h)
    as [res h'] eqn:E.
  simpl in O.
  destruct O as [(R & On & Rk & D & C & _) | [(R & Off & I & C) | (R & I & D & C)]];
    subst res.
  - rewrite On, Rk. simpl. rewrite ?app_nil_r.
    repeat split; auto. left. repeat split; auto.
  - assert (S : isOnline h && is_ok r = false).
    { destruct Off as [Off | Off]; [now rewrite Off|].
      destruct r; [congruence | |]; apply andb_false_r. }
    rewrite S. simpl. rewrite ?app_nil_r.
    repeat split; auto. left. repeat split; auto.
  - assert (S : isOnline h && is_ok r = false).
    { unfold submitWithOfflineSupport in E.
      destruct (isOnline h); [|reflexivity].
      destruct r; [discriminate E | |]; reflexivity. }
    rewrite S. simpl. rewrite ?app_nil_r.
    repeat split; auto. right. repeat split; auto.
Qed.

End CashFormFacts.

Section MoreInstances.

Import OfflineDb OfflineSync Drain Sample Sample2.

Lemma remove_missing_id_is_noop_witness :
  ~ In "zz" (map id (getOfflineQueue one_queued))
  /\ removeFromOfflineQueue "zz" one_queued = one_queued.
Proof.
  assert (N : ~ In "zz" (map id (getOfflineQueue one_queued)))
    by (simpl; intuition discriminate).
  exact (conj N (remove_missing_id_is_noop "zz" one_queued N)).
Defined.

Lemma enqueue_keeps_the_rest_witness :
  ~ In "b" (map id (getOfflineQueue one_queued))
  /\ exists d',
       addToOfflineQueue "b" 2%Z "store_actions" Js.null one_queued
       = Js.resolved ("b", d')
       /\ List.length (getOfflineQueue d') = 2.
Proof.
  assert (N : ~ In "b" (map id (getOfflineQueue one_queued)))
    by (simpl; intuition discriminate).
  split; [exact N|].
  destruct (enqueue_keeps_the_rest "b" 2%Z "store_actions" Js.null one_queued N)
    as (d' & A & _ & L & _).
  exists d'. exact (conj A L).
Defined.

Lemma cache_other_keys_untouched_witness :
  "submission_types" <> "stores"
  /\ getCachedData "submission_types"
       (cacheData 5%Z "stores" "stores" (Js.array [Js.str "NCFL-1"])
          (cacheData 4%Z "submission_types" "submission_types"
             (Js.array [Js.str "cash"]) initOfflineDb))
     = Js.array [Js.str "cash"].
Proof.
  assert (N : "submission_types" <> "stores") by discriminate.
  split; [exact N|].
  exact (eq_trans
           (proj1 (cache_other_keys_untouched 5%Z "stores" "submission_types"
                     "stores" (Js.array [Js.str "NCFL-1"])
                     (cacheData 4%Z "submission_types" "submission_types"
                        (Js.array [Js.str "cash"]) initOfflineDb) N))
           eq_refl).
Defined.

Lemma syncQueue_keeps_exactly_the_failed_witness :
  passes (initial three_queued true) = []
  /\ guard (initial three_queued true) = false
  /\ NoDup (map id (getOfflineQueue (db (initial three_queued true))))
  /\ getOfflineQueue (db (syncQueue remote_b_fails (initial three_queued true)))
     = [item_b]
  /\ pendingCount (syncQueue remote_b_fails (initial three_queued true)) = 1%Z.
Proof.
  assert (ND : NoDup (map id (getOfflineQueue (db (initial three_queued true)))))
    by (repeat constructor; simpl; intuition discriminate).
  destruct (syncQueue_keeps_exactly_the_failed remote_b_fails
              (initial three_queued true) eq_refl eq_refl ND) as (_ & Q & P & _).
  exact (conj eq_refl (conj eq_refl (conj ND (conj Q P)))).
Defined.

Lemma second_pass_retries_only_the_rest_witness :
  passes (initial three_queued true) = []
  /\ guard (initial three_queued true) = false
  /\ NoDup (map id (getOfflineQueue (db (initial three_queued true))))
  /\ getOfflineQueue
       (db (syncQueue always_ok (syncQueue remote_b_fails (initial three_queued true))))
     = []
  /\ effects (syncQueue always_ok (syncQueue remote_b_fails (initial three_queued true)))
     = effects (syncQueue remote_b_fails (initial three_queued true))
       ++ [ReadQueue; RemoteInsert "store_actions" Js.null; Dequeue "b"].
Proof.
  assert (ND : NoDup (map id (getOfflineQueue (db (initial three_queued true)))))
    by (repeat constructor; simpl; intuition discriminate).
  destruct (second_pass_retries_only_the_rest remote_b_fails always_ok
              (initial three_queued true) eq_refl eq_refl ND) as (_ & E & Q & _).
  exact (conj eq_refl (conj eq_refl (conj ND (conj Q E)))).
Defined.

Lemma pending_count_never_negative_witness :
  exists h,
    run [CallSyncQueue; QueueRead 0; ClearCache; LoadPendingCount;
         InsertSettled 0 insert_ok; PassDone 0]
        (initial one_queued true) = Some h
    /\ pendingCount h = 0%Z
    /\ (0 <= pendingCount h)%Z.
Proof.
  eexists. split; [vm_compute; reflexivity|]. split; [reflexivity|].
  apply (pending_count_never_negative one_queued true
           [CallSyncQueue; QueueRead 0; ClearCache; LoadPendingCount;
            InsertSettled 0 insert_ok; PassDone 0]).
  vm_compute; reflexivity.
Defined.

Lemma sync_button_disabled_iff_noop_witness :
  exists h,
    run [CallSyncQueue; QueueRead 0] (initial one_queued true) = Some h
    /\ Layout.sync_button_disabled h = true
    /\ step CallSyncQueue h = Some h.
Proof.
  eexists. split; [vm_compute; reflexivity|]. split; [reflexivity|].
  apply (proj1 (proj2 (sync_button_disabled_iff_noop one_queued true
                         [CallSyncQueue; QueueRead 0] _ eq_refl))).
  reflexivity.
Defined.

Lemma later_items_wait_for_next_pass_witness :
  In item_c (getOfflineQueue (db mid_pass))
  /\ outside_snapshots item_c mid_pass
  /\ exists h',
       run [InsertSettled 0 insert_ok; PassDone 0] mid_pass = Some h'
       /\ passes h' = []
       /\ In item_c (getOfflineQueue (db h')).
Proof.
  assert (I : In item_c (getOfflineQueue (db mid_pass))) by (simpl; auto).
  assert (O : outside_snapshots item_c mid_pass).
  { intros p [<- | []]. simpl. intuition discriminate. }
  split; [exact I|]. split; [exact O|].
  eexists. split; [vm_compute; reflexivity|]. split; [reflexivity|].
  apply (later_items_wait_for_next_pass item_c
           [InsertSettled 0 insert_ok; PassDone 0] mid_pass _ I O eq_refl).
  vm_compute; reflexivity.
Defined.

Lemma offline_hook_sends_nothing_witness :
  exists h,
    run [Submit "a" 1%Z insert_ok "cash_actions" shortage_record;
         CallSyncQueue; Connectivity false]
        (initial initOfflineDb false) = Some h
    /\ getOfflineQueue (db h) = [item_a]
    /\ forallb (fun e => negb (is_remote_insert e)) (effects h) = true.
Proof.
  eexists. split; [vm_compute; reflexivity|]. split; [reflexivity|].
  apply (offline_hook_sends_nothing initOfflineDb
           [Submit "a" 1%Z insert_ok "cash_actions" shortage_record;
            CallSyncQueue; Connectivity false] _ eq_refl).
  vm_compute; reflexivity.
Defined.

Lemma severity_monotone_witness :
  Js.ge (Js.Math_abs (-75)%float) (Js.Math_abs 30%float) = true
  /\ SeverityOrder.rank (CashAction.calculateSeverity 30%float)
     <= SeverityOrder.rank (CashAction.calculateSeverity (-75)%float).
Proof.
  exact (conj eq_refl (severity_monotone 30%float (-75)%float eq_refl)).
Defined.

End MoreInstances.

(* ================================================================== *)
(** ** Several instances on one page *)

Section PageFacts.

Import OfflineDb OfflineSync Page Sample Sample2.

(** C1. Two instances of the hook are mounted together, the layout's
    and the open module's, each with an [isSyncingRef] of its own.
    When connectivity returns with one record queued, both get past
    their guard: two passes are in flight at once, both hold the same
    record in their snapshot, and the record is inserted remotely
    twice. *)
Theorem two_instances_drain_at_once :
  exists mid final : Page.Page,
    Page.run [ (layout, LoadPendingCount); (open_module, LoadPendingCount);
               (layout, Connectivity true); (open_module, Connectivity true);
               (layout, CallSyncQueue); (open_module, CallSyncQueue);
               (layout, QueueRead 0); (open_module, QueueRead 0) ]
      (mount 2 one_queued false) = Some mid
    /\ map in_flight (instances mid) = [ [Looping [item_a]]; [Looping [item_a]] ]
    /\ map syncingRef (instances mid) = [true; true]
    /\ Page.run [ (layout, InsertSettled 0 insert_ok);
                  (open_module, InsertSettled 0 insert_ok);
                  (layout, PassDone 0); (open_module, PassDone 0) ] mid
       = Some final
    /\ remote_inserts (remote_log final)
       = [ RemoteInsert "cash_actions" shortage_record;
           RemoteInsert "cash_actions" shortage_record ]
    /\ getOfflineQueue (shared_db final) = [].
Proof.
  eexists. eexists.
  split; [vm_compute; reflexivity|].
  split; [reflexivity|]. split; [reflexivity|].
  split; [vm_compute; reflexivity|].
  split; reflexivity.
Qed.

(** C3. The count is each instance's own.  With the layout's instance
    mounted, loaded and idle, one record submitted offline through the
    instance of the open module is in the queue and counted there,
    while the count the layout shows stays 0 over a queue of one. *)
Theorem layout_count_misses_module_submit :
  exists p : Page.Page,
    Page.run [ (layout, LoadPendingCount); (open_module, LoadPendingCount);
               (open_module,
                Submit "a" 1%Z insert_ok "cash_actions" shortage_record) ]
      (mount 2 initOfflineDb false) = Some p
    /\ getOfflineQueue (shared_db p) = [item_a]
    /\ map in_flight (instances p) = [ []; [] ]
    /\ map count (instances p) = [0%Z; 1%Z].
Proof.
  eexists. split; [vm_compute; reflexivity|].
  split; [reflexivity|]. split; reflexivity.
Qed.

Lemma detach_attach (p : Page.Page) (i : Instance) : detach (attach p i) = i.
Proof. destruct i; reflexivity. Qed.

Lemma replace_nth_same {A : Type} (k : nat) (x : A) (l : list A) :
  nth_error l k = Some x -> replace_nth k x l = l.
Proof.
  revert k. induction l as [|a l IH]; intros [|k]; simpl; try discriminate.
  - intros H. injection H as ->. reflexivity.
  - intros H. now rewrite IH.
Qed.

Lemma Forall_replace_nth {A : Type} (P : A -> Prop) (k : nat) (x : A) (l : list A) :
  P x -> Forall P l -> Forall P (replace_nth k x l).
Proof.
  intros Hx. revert k. induction l as [|a l IH]; intros [|k] H; simpl; auto;
    inversion H; subst; constructor; auto.
Qed.

Lemma step_at_one_pass (k : nat) (e : Event) (p p' : Page.Page) :
  Forall one_pass (instances p) -> step_at k e p = Some p' ->
  Forall one_pass (instances p').
Proof.
  unfold step_at. intros F H.
  destruct (nth_error (instances p) k) as [i|] eqn:E; [|discriminate].
  destruct (step e (attach p i)) as [h|] eqn:S; [|discriminate].
  injection H as <-. simpl.
  apply Forall_replace_nth; [|exact F].
  assert (SF : single_flight (attach p i)).
  { rewrite Forall_forall in F. exact (F i (nth_error_In _ _ E)). }
  exact (step_single_flight e (attach p i) h SF S).
Qed.

(** X21. However many instances of the hook are mounted on the page
    and whatever they and the others do, each instance has at most one
    pass of its own in flight, and its [isSyncingRef] is up exactly
    then; a call of [syncQueue] on an instance that has a pass in
    flight changes nothing on the page.  (Passes of different
    instances are not kept apart.) *)
Theorem each_instance_one_pass (n : nat) (d : database) (is_online : bool)
    (es : list (nat * Event)) (p : Page.Page) :
  Page.run es (mount n d is_online) = Some p ->
  Forall one_pass (instances p)
  /\ forall k i,
       nth_error (instances p) k = Some i ->
       in_flight i <> [] ->
       step_at k CallSyncQueue p = Some p.
Proof.
  intros H.
  assert (F : Forall one_pass (instances p)).
  { assert (G : forall es p0 p1,
               Forall one_pass (instances p0) -> Page.run es p0 = Some p1 ->
               Forall one_pass (instances p1)).
    { clear. induction es as [|[k e] es IH]; simpl; intros p0 p1 F H.
      - injection H as <-. exact F.
      - destruct (step_at k e p0) as [p2|] eqn:E; [|discriminate].
        exact (IH p2 p1 (step_at_one_pass k e p0 p2 F E) H). }
    apply (G es (mount n d is_online) p); [|exact H].
    simpl. apply Forall_forall. intros i Hi.
    apply repeat_spec in Hi. subst i. left. split; reflexivity. }
  split; [exact F|].
  intros k i E Hne.
  rewrite Forall_forall in F.
  destruct (F i (nth_error_In _ _ E)) as [[P _] | (q & _ & R)]; [contradiction|].
  unfold step_at. rewrite E. cbn [step]. unfold call_syncQueue, guard.
  cbn [attach isOnline isSyncingRef]. rewrite R, orb_true_r.
  fold (attach p i). rewrite detach_attach, (replace_nth_same k i _ E).
  destruct p; reflexivity.
Qed.

Lemma each_instance_one_pass_witness :
  exists p : Page.Page,
    Page.run [ (layout, CallSyncQueue); (open_module, CallSyncQueue);
               (layout, QueueRead 0) ]
      (mount 2 one_queued true) = Some p
    /\ Forall one_pass (instances p)
    /\ step_at layout CallSyncQueue p = Some p.
Proof.
  eexists. split; [vm_compute; reflexivity|].
  match goal with
  | |- Forall one_pass (instances ?p) /\ _ =>
      assert (H : Page.run [ (layout, CallSyncQueue); (open_module, CallSyncQueue);
                             (layout, QueueRead 0) ]
                    (mount 2 one_queued true) = Some p)
        by (vm_compute; reflexivity);
      destruct (each_instance_one_pass 2 one_queued true _ p H) as [F N]
  end.
  split; [exact F|]. apply (N layout _ eq_refl). discriminate.
Defined.

End PageFacts.
